(** * GoPiGo3WithKeyboard: key dispatch, toggle flags and scripted routines

    A model of [my_keyboarded_robot.py].  Every method of the class is a
    program over the effects the Python code performs: a method call on
    [self.gopigo3] (which may raise), [time.sleep], [random.randint], a
    read or write of one of the four boolean attributes, and [print].
    Programs are trees of such effects; [run] gives them their meaning on
    a world holding the attributes, with an environment that says which
    hardware calls raise and what the random source yields.

    Numbers.  Python 3 arithmetic is assumed ([60/128] is a true division).
    Arguments and durations are rationals.  Every duration of the script is
    a dyadic multiple of [beat = 15/32] and is exact in binary64; the two
    speed arguments [380/2*1.141] and [243*(90/135)] are binary64
    approximations in Python and exact rationals here.  No statement below
    depends on their values. *)

From Stdlib Require Import QArith.
From stdpp Require Import gmap strings list fin_maps.

(** ** The hardware interface *)

Module gopigo3.
(** The methods of [easygopigo3.EasyGoPiGo3] that the class calls on
    [self.gopigo3], each with its arguments. *)
Inductive Call : Type :=
| forward
| backward
| left
| right
| stop
| drive_cm (dist : Q)
| drive_inches (dist : Q)
| drive_degrees (degrees : Q)
| turn_degrees (degrees : Q)
| set_speed (in_speed : Q)
| steer (left_percent right_percent : Q)
| led_on (id : Z)
| led_off (id : Z)
| blinker_on (id : Z)
| blinker_off (id : Z)
| open_left_eye
| open_right_eye
| open_eyes
| close_left_eye
| close_right_eye
| close_eyes
| set_eye_color (color : Z * Z * Z)
| set_left_eye_color (color : Z * Z * Z)
| set_right_eye_color (color : Z * Z * Z)
| init_servo.
End gopigo3.

(** The calls that set the wheels in motion or bring them to rest;
    [set_speed] only stores the speed for later calls, and lights, eyes and
    the servo do not move the robot. *)
Definition is_motion (c : gopigo3.Call) : bool :=
  match c with
  | gopigo3.forward | gopigo3.backward | gopigo3.left | gopigo3.right
  | gopigo3.stop | gopigo3.steer _ _
  | gopigo3.drive_cm _ | gopigo3.drive_inches _ | gopigo3.drive_degrees _
  | gopigo3.turn_degrees _ => true
  | _ => false
  end.

(** ** The four boolean attributes of the class *)

Inductive Attr : Type :=
| LeftBlinkerOn
| RightBlinkerOn
| LeftEyeOn
| RightEyeOn.

Record Flags : Type := mkFlags {
  left_blinker_on : bool;
  right_blinker_on : bool;
  left_eye_on : bool;
  right_eye_on : bool
}.

(** The class attributes [left_blinker_on = False] and so on. *)
Definition class_flags : Flags := mkFlags false false false false.

Definition get_attr (f : Attr) (s : Flags) : bool :=
  match f with
  | LeftBlinkerOn => left_blinker_on s
  | RightBlinkerOn => right_blinker_on s
  | LeftEyeOn => left_eye_on s
  | RightEyeOn => right_eye_on s
  end.

Definition set_attr (f : Attr) (v : bool) (s : Flags) : Flags :=
  match f with
  | LeftBlinkerOn =>
      mkFlags v (right_blinker_on s) (left_eye_on s) (right_eye_on s)
  | RightBlinkerOn =>
      mkFlags (left_blinker_on s) v (left_eye_on s) (right_eye_on s)
  | LeftEyeOn =>
      mkFlags (left_blinker_on s) (right_blinker_on s) v (right_eye_on s)
  | RightEyeOn =>
      mkFlags (left_blinker_on s) (right_blinker_on s) (left_eye_on s) v
  end.

(** ** Programs *)

Inductive Prog (A : Type) : Type :=
| Ret (a : A)
| Act (c : gopigo3.Call) (k : Prog A)
| Sleep (secs : Q) (k : Prog A)
| RandInt (a b : Z) (k : Z → Prog A)
| GetAttr (f : Attr) (k : bool → Prog A)
| SetAttr (f : Attr) (v : bool) (k : Prog A)
| Print (line : string) (k : Prog A).

Arguments Ret {A} a.
Arguments Act {A} c k.
Arguments Sleep {A} secs k.
Arguments RandInt {A} a b k.
Arguments GetAttr {A} f k.
Arguments SetAttr {A} f v k.
Arguments Print {A} line k.

Fixpoint bind {A B : Type} (m : Prog A) (f : A → Prog B) : Prog B :=
  match m with
  | Ret a => f a
  | Act c k => Act c (bind k f)
  | Sleep d k => Sleep d (bind k f)
  | RandInt a b k => RandInt a b (λ z, bind (k z) f)
  | GetAttr x k => GetAttr x (λ v, bind (k v) f)
  | SetAttr x v k => SetAttr x v (bind k f)
  | Print s k => Print s (bind k f)
  end.

#[global] Instance Prog_ret : MRet Prog := @Ret.
#[global] Instance Prog_bind : MBind Prog := λ A B f m, bind m f.
#[global] Instance Prog_fmap : FMap Prog := λ A B f m, bind m (λ a, Ret (f a)).

(** [self.gopigo3.<c>(...)]; the value the method returns is not used
    anywhere in the class. *)
Definition call (c : gopigo3.Call) : Prog unit := Act c (Ret tt).
(** [sleep(secs)] *)
Definition sleep (secs : Q) : Prog unit := Sleep secs (Ret tt).
(** [random.randint(a, b)] *)
Definition randint (a b : Z) : Prog Z := RandInt a b Ret.
(** [self.<f>] *)
Definition self_get (f : Attr) : Prog bool := GetAttr f Ret.
(** [self.<f> = v] *)
Definition self_set (f : Attr) (v : bool) : Prog unit := SetAttr f v (Ret tt).
(** [print(line)] *)
Definition print (line : string) : Prog unit := Print line (Ret tt).

(** [x is False] and [x is True] on a Python [bool]. *)
Definition is_False (x : bool) : bool := negb x.
Definition is_True (x : bool) : bool := x.

(** [p and q]: [q] is evaluated only when [p] is true. *)
Definition and_ (p q : Prog bool) : Prog bool :=
  p ≫= λ x : bool, if x then q else mret false.

(** ** Running a program *)

Inductive Exn : Type :=
| ActuatorError.

Inductive Outcome (A : Type) : Type :=
| Returned (a : A)
| Raised (e : Exn).

Arguments Returned {A} a.
Arguments Raised {A} e.

Inductive Event : Type :=
| EvCall (c : gopigo3.Call)
| EvSleep (secs : Q)
| EvPrint (line : string).

(** What the program cannot control: whether the n-th hardware call made
    since start-up raises, and the n-th raw value of the random source. *)
Record Env : Type := mkEnv {
  raises : nat → bool;
  entropy : nat → Z
}.

Record World : Type := mkWorld {
  flags : Flags;
  calls_made : nat;
  draws_made : nat
}.

Record Result (A : Type) : Type := mkResult {
  outcome : Outcome A;
  final : World;
  trace : list Event
}.

Arguments mkResult {A} outcome final trace.
Arguments outcome {A} r.
Arguments final {A} r.
Arguments trace {A} r.

Definition emit {A : Type} (e : Event) (r : Result A) : Result A :=
  mkResult (outcome r) (final r) (e :: trace r).

(** The value [random.randint(a, b)] makes of a raw value: an integer
    between [a] and [b], both included. *)
Definition randint_value (a b raw : Z) : Z := (a + raw `mod` (b - a + 1))%Z.

Fixpoint run {A : Type} (env : Env) (p : Prog A) (w : World) : Result A :=
  match p with
  | Ret a => mkResult (Returned a) w []
  | Act c k =>
      let w' := mkWorld (flags w) (S (calls_made w)) (draws_made w) in
      if raises env (calls_made w)
      then mkResult (Raised ActuatorError) w' [EvCall c]
      else emit (EvCall c) (run env k w')
  | Sleep d k => emit (EvSleep d) (run env k w)
  | RandInt a b k =>
      run env (k (randint_value a b (entropy env (draws_made w))))
          (mkWorld (flags w) (calls_made w) (S (draws_made w)))
  | GetAttr f k => run env (k (get_attr f (flags w))) w
  | SetAttr f v k =>
      run env k (mkWorld (set_attr f v (flags w)) (calls_made w) (draws_made w))
  | Print s k => emit (EvPrint s) (run env k w)
  end.

(** Hardware that never raises. *)
Definition never_raises (env : Env) : Prop := ∀ n, raises env n = false.

Definition quiet (env : Env) : Env := mkEnv (λ _, false) (entropy env).

(** The first call to raise, counted from the world [w], is the [k]-th
    (counting from 1). *)
Definition raises_at (env : Env) (w : World) (k : nat) : Prop :=
  (∀ i, (i < k)%nat → raises env (calls_made w + i) = false) ∧
  raises env (calls_made w + k) = true.

Definition first_fault (env : Env) (w : World) (k : nat) : Prop :=
  ∃ j, k = S j ∧ raises_at env w j.

(** Projections of a trace. *)
Definition calls (tr : list Event) : list gopigo3.Call :=
  omap (λ e, match e with EvCall c => Some c | _ => None end) tr.

Definition sleeps (tr : list Event) : list Q :=
  omap (λ e, match e with EvSleep d => Some d | _ => None end) tr.

Definition printed (tr : list Event) : list string :=
  omap (λ e, match e with EvPrint s => Some s | _ => None end) tr.

(** Total time spent in [sleep]. *)
Definition blocked (tr : list Event) : Q := foldr Qplus 0%Q (sleeps tr).

(** The last motion call of a trace, if any. *)
Definition last_motion (tr : list Event) : option gopigo3.Call :=
  last (List.filter is_motion (calls tr)).

(** ** The command methods *)

Definition _gopigo3_command_forward : Prog string :=
  call gopigo3.forward;;
  mret "moving".

Definition _gopigo3_command_backward : Prog string :=
  call gopigo3.backward;;
  mret "moving".

Definition _gopigo3_command_left : Prog string :=
  call gopigo3.left;;
  mret "moving".

Definition _gopigo3_command_right : Prog string :=
  call gopigo3.right;;
  mret "moving".

Definition _gopigo3_command_stop : Prog string :=
  call gopigo3.stop;;
  mret "moving".

Definition _gopigo3_command_forward10cm : Prog string :=
  call (gopigo3.drive_cm 10);;
  mret "path".

Definition _gopigo3_command_forward10in : Prog string :=
  call (gopigo3.drive_inches 10);;
  mret "path".

Definition _gopigo3_command_forwardturn : Prog string :=
  call (gopigo3.drive_degrees 360);;
  mret "path".

Definition _gopigo3_command_leftblinker : Prog string :=
  (self_get LeftBlinkerOn ≫= λ on : bool,
   if is_False on then
     call (gopigo3.led_on 1);;
     self_set LeftBlinkerOn true
   else
     call (gopigo3.led_off 1);;
     self_set LeftBlinkerOn false);;
  mret "static".

Definition _gopigo3_command_rightblinker : Prog string :=
  (self_get RightBlinkerOn ≫= λ on : bool,
   if is_False on then
     call (gopigo3.led_on 0);;
     self_set RightBlinkerOn true
   else
     call (gopigo3.led_off 0);;
     self_set RightBlinkerOn false);;
  mret "static".

Definition _gopigo3_command_blinkers : Prog string :=
  (and_ (is_False <$> self_get LeftBlinkerOn)
        (is_False <$> self_get RightBlinkerOn) ≫= λ both_off : bool,
   if both_off then
     call (gopigo3.led_on 0);;
     call (gopigo3.led_on 1);;
     self_set LeftBlinkerOn true;;
     self_set RightBlinkerOn true
   else
     call (gopigo3.led_off 0);;
     call (gopigo3.led_off 1);;
     self_set LeftBlinkerOn false;;
     self_set RightBlinkerOn false);;
  mret "static".

Definition _gopigo3_command_lefteye : Prog string :=
  (self_get LeftEyeOn ≫= λ on : bool,
   if is_False on then
     call gopigo3.open_left_eye;;
     self_set LeftEyeOn true
   else
     call gopigo3.close_left_eye;;
     self_set LeftEyeOn false);;
  mret "static".

Definition _gopigo3_command_righteye : Prog string :=
  (self_get RightEyeOn ≫= λ on : bool,
   if is_False on then
     call gopigo3.open_right_eye;;
     self_set RightEyeOn true
   else
     call gopigo3.close_right_eye;;
     self_set RightEyeOn false);;
  mret "static".

Definition _gopigo3_command_eyes : Prog string :=
  (and_ (is_False <$> self_get LeftEyeOn)
        (is_False <$> self_get RightEyeOn) ≫= λ both_off : bool,
   if both_off then
     call gopigo3.open_eyes;;
     self_set LeftEyeOn true;;
     self_set RightEyeOn true
   else
     call gopigo3.close_eyes;;
     self_set LeftEyeOn false;;
     self_set RightEyeOn false);;
  mret "static".

Definition _gopigo3_command_eyescolor : Prog string :=
  randint 0 255 ≫= λ red : Z,
  randint 0 255 ≫= λ green : Z,
  randint 0 255 ≫= λ blue : Z,
  call (gopigo3.set_eye_color (red, green, blue));;
  (self_get LeftEyeOn ≫= λ on : bool,
   if is_True on then call gopigo3.open_left_eye else mret tt);;
  (self_get RightEyeOn ≫= λ on : bool,
   if is_True on then call gopigo3.open_right_eye else mret tt);;
  mret "static".

Definition _gopigo3_command_exit : Prog string :=
  mret "exit".

(** The loop of the dance,
    [while slowCounter > 0: set_speed(slowCounter * 25); steer(100, 100);
     slowCounter -= 1; sleep(beat)],
    for a counter that holds a natural number when the loop is entered. *)
Fixpoint slow_loop (beat : Q) (slowCounter : nat) : Prog unit :=
  match slowCounter with
  | O => mret tt
  | S slowCounter' =>
      call (gopigo3.set_speed (inject_Z (Z.of_nat slowCounter) * 25));;
      call (gopigo3.steer 100 100);;
      sleep beat;;
      slow_loop beat slowCounter'
  end.

Definition _gopigo3_command_activatedance : Prog string :=
  let beat := (60/128)%Q in
  call (gopigo3.set_speed 300);;
  let turn90Deg := (310)%Q in
  call gopigo3.close_eyes;;
  (* beat 0 *)
  call (gopigo3.steer 100 100);;
  sleep (beat * 2);;
  call gopigo3.stop;;
  sleep (beat * 2);;
  call (gopigo3.steer 100 100);;
  sleep (beat * 2);;
  call gopigo3.stop;;
  sleep (beat * 2);;
  call (gopigo3.set_speed 300);;
  call (gopigo3.steer 100 13.5);;
  sleep (beat*8);;
  (* beat 16 *)
  call (gopigo3.set_speed 300);;
  call (gopigo3.steer 100 100);;
  sleep (beat / 2);;
  call gopigo3.stop;;
  sleep (beat / 2);;
  call (gopigo3.steer 100 100);;
  sleep (beat / 2);;
  call gopigo3.stop;;
  sleep (beat / 2);;
  call (gopigo3.steer 100 100);;
  sleep (beat / 2);;
  call gopigo3.stop;;
  sleep (beat / 2);;
  call (gopigo3.steer 100 100);;
  sleep (beat / 2);;
  call gopigo3.stop;;
  sleep (beat / 2);;
  call (gopigo3.steer 100 100);;
  sleep (beat / 2);;
  call gopigo3.stop;;
  sleep (beat / 2);;
  call (gopigo3.steer 100 100);;
  sleep (beat / 2);;
  call gopigo3.stop;;
  sleep (beat / 2);;
  call (gopigo3.steer 100 100);;
  sleep (beat / 2);;
  call gopigo3.stop;;
  sleep (beat / 2);;
  call (gopigo3.steer 100 100);;
  sleep (beat / 2);;
  call gopigo3.stop;;
  sleep (beat / 2);;
  (* beat 24 *)
  let starDriveDiameter := (380)%Q in
  let starDriveHypotenuse := (starDriveDiameter / 2 * 1.141)%Q in
  let starTurnSpeed135 := (243)%Q in
  call (gopigo3.set_speed starDriveDiameter);;
  call (gopigo3.steer 100 100);;
  sleep (beat * 2);;
  call (gopigo3.set_speed starTurnSpeed135);;
  call (gopigo3.steer (-100) 100);;
  sleep (beat * 2);;
  call (gopigo3.set_speed starDriveHypotenuse);;
  call (gopigo3.steer 100 100);;
  sleep (beat * 2);;
  call (gopigo3.set_speed (starTurnSpeed135 * (90/135)));;
  call (gopigo3.steer (-100) 100);;
  sleep (beat * 2);;
  call (gopigo3.set_speed ((starDriveHypotenuse)));;
  call (gopigo3.steer 100 100);;
  sleep (beat * 2);;
  call (gopigo3.set_speed (starTurnSpeed135 * (90/135)));;
  call (gopigo3.steer (-100) 100);;
  sleep (beat * 2);;
  call (gopigo3.set_speed starDriveHypotenuse);;
  call (gopigo3.steer 100 100);;
  sleep (beat * 2);;
  call (gopigo3.set_speed starTurnSpeed135);;
  call (gopigo3.steer (-100) 100);;
  sleep (beat * 2);;
  call (gopigo3.set_speed starDriveDiameter);;
  call (gopigo3.steer 100 100);;
  sleep (beat * 2);;
  (* Beat 42 *)
  call (gopigo3.set_speed turn90Deg);;
  call (gopigo3.steer 100 (-100));;
  sleep (beat);;
  call (gopigo3.set_speed 250);;
  let slowCounter := 12%nat in
  slow_loop beat slowCounter;;
  (* Beat 55 *)
  call (gopigo3.set_speed turn90Deg);;
  call (gopigo3.steer 100 (-100));;
  sleep (beat);;
  call (gopigo3.set_speed 300);;
  call (gopigo3.steer 100 100);;
  sleep (beat / 2);;
  call gopigo3.stop;;
  sleep (beat / 2);;
  call (gopigo3.steer 100 100);;
  sleep (beat / 2);;
  call gopigo3.stop;;
  sleep (beat / 2);;
  call (gopigo3.steer 100 100);;
  sleep (beat / 2);;
  call gopigo3.stop;;
  sleep (beat / 2);;
  call (gopigo3.steer 100 100);;
  sleep (beat / 2);;
  call gopigo3.stop;;
  sleep (beat / 2);;
  call (gopigo3.steer 100 100);;
  sleep (beat / 2);;
  call gopigo3.stop;;
  sleep (beat / 2);;
  call (gopigo3.steer 100 100);;
  sleep (beat / 2);;
  call gopigo3.stop;;
  sleep (beat / 2);;
  call (gopigo3.steer 100 100);;
  sleep (beat / 2);;
  call gopigo3.stop;;
  sleep (beat / 2);;
  call (gopigo3.steer 100 100);;
  sleep (beat / 2);;
  call gopigo3.stop;;
  sleep (beat / 2);;
  (* Beat 64 *)
  let walkSpeed := (250)%Q in
  call (gopigo3.set_speed turn90Deg);;
  call (gopigo3.steer 100 (-100));;
  sleep (beat);;
  call (gopigo3.set_speed walkSpeed);;
  call gopigo3.forward;;
  sleep (beat * 2);;
  call (gopigo3.steer 100 (-100));;
  sleep (beat/2);;
  call (gopigo3.steer (-100) 100);;
  sleep (beat/2);;
  call (gopigo3.set_speed walkSpeed);;
  call gopigo3.forward;;
  sleep (beat * 2);;
  (* Beat 70 *)
  call (gopigo3.steer 100 (-100));;
  sleep (beat/2);;
  call (gopigo3.steer (-100) 100);;
  sleep (beat/2);;
  call (gopigo3.set_speed turn90Deg);;
  call (gopigo3.steer (-100) 100);;
  sleep (beat);;
  call (gopigo3.set_speed walkSpeed);;
  call gopigo3.forward;;
  sleep (beat * 2);;
  call (gopigo3.steer 100 (-100));;
  sleep (beat/2);;
  call (gopigo3.steer (-100) 100);;
  sleep (beat/2);;
  call (gopigo3.set_speed walkSpeed);;
  call gopigo3.forward;;
  sleep (beat * 2);;
  call (gopigo3.steer 100 (-100));;
  sleep (beat/2);;
  call (gopigo3.steer (-100) 100);;
  sleep (beat/2);;
  (* Beat 78 *)
  call (gopigo3.set_speed turn90Deg);;
  call (gopigo3.steer (-100) 100);;
  sleep (beat);;
  call (gopigo3.set_speed walkSpeed);;
  call gopigo3.forward;;
  sleep (beat * 1);;
  call gopigo3.open_eyes;;
  call (gopigo3.blinker_on 0);;
  call (gopigo3.blinker_on 1);;
  call (gopigo3.set_speed walkSpeed);;
  call gopigo3.forward;;
  sleep (beat * 1);;
  call (gopigo3.steer 100 (-100));;
  sleep (beat/2);;
  call (gopigo3.steer (-100) 100);;
  sleep (beat/2);;
  call (gopigo3.set_speed walkSpeed);;
  call gopigo3.forward;;
  sleep (beat * 2);;
  call (gopigo3.steer 100 (-100));;
  sleep (beat/2);;
  call (gopigo3.steer (-100) 100);;
  sleep (beat/2);;
  call (gopigo3.set_speed turn90Deg);;
  call (gopigo3.steer 100 (-100));;
  sleep (beat);;
  (* Beat 86 *)
  call (gopigo3.set_speed walkSpeed);;
  call gopigo3.forward;;
  sleep (beat * 4);;
  call (gopigo3.set_speed turn90Deg);;
  call (gopigo3.steer 100 (-100));;
  sleep (beat * 1);;
  call (gopigo3.set_speed walkSpeed);;
  call gopigo3.forward;;
  sleep (beat * 3);;
  (* Beat 94 *)
  let figure8speed := (320)%Q in
  call (gopigo3.set_speed figure8speed);;
  call (gopigo3.steer 100 20);;
  sleep (beat * 4);;
  call (gopigo3.set_speed figure8speed);;
  call (gopigo3.steer 20 100);;
  sleep (beat * 4);;
  (* Beat 102 *)
  call (gopigo3.set_speed turn90Deg);;
  call (gopigo3.steer (-100) 100);;
  sleep (beat*8);;
  call (gopigo3.set_speed turn90Deg);;
  call (gopigo3.steer 100 (-100));;
  sleep (beat*2);;
  (* Beat 112 *)
  call (gopigo3.set_speed figure8speed);;
  call (gopigo3.steer 20 100);;
  sleep (beat * 4);;
  call (gopigo3.set_speed figure8speed);;
  call (gopigo3.steer 100 20);;
  sleep (beat * 4);;
  (* Beat 120 *)
  call (gopigo3.set_speed turn90Deg);;
  call (gopigo3.steer (-100) 100);;
  call (gopigo3.set_right_eye_color (255, 0, 0)%Z);;
  call (gopigo3.set_left_eye_color (0, 0, 255)%Z);;
  call gopigo3.close_eyes;;
  call gopigo3.open_eyes;;
  sleep (beat);;
  call (gopigo3.set_right_eye_color (0, 255, 0)%Z);;
  call (gopigo3.set_left_eye_color (255, 0, 0)%Z);;
  call gopigo3.close_eyes;;
  call gopigo3.open_eyes;;
  sleep (beat);;
  call (gopigo3.set_right_eye_color (0, 0, 255)%Z);;
  call (gopigo3.set_left_eye_color (0, 255, 0)%Z);;
  call gopigo3.close_eyes;;
  call gopigo3.open_eyes;;
  sleep (beat);;
  call (gopigo3.set_right_eye_color (255, 255, 255)%Z);;
  call (gopigo3.set_left_eye_color (255, 255, 255)%Z);;
  call gopigo3.close_eyes;;
  call gopigo3.open_eyes;;
  sleep (beat);;
  let finishCounter := (0)%Q in
  call (gopigo3.set_speed turn90Deg);;
  call (gopigo3.steer 100 (-100));;
  call (gopigo3.set_right_eye_color (255, 0, 0)%Z);;
  call (gopigo3.set_left_eye_color (0, 0, 255)%Z);;
  call gopigo3.close_eyes;;
  call gopigo3.open_eyes;;
  sleep (beat);;
  call (gopigo3.set_right_eye_color (0, 255, 0)%Z);;
  call (gopigo3.set_left_eye_color (255, 0, 0)%Z);;
  call gopigo3.close_eyes;;
  call gopigo3.open_eyes;;
  sleep (beat);;
  call (gopigo3.set_right_eye_color (0, 0, 255)%Z);;
  call (gopigo3.set_left_eye_color (0, 255, 0)%Z);;
  call gopigo3.close_eyes;;
  call gopigo3.open_eyes;;
  sleep (beat);;
  call (gopigo3.set_right_eye_color (255, 255, 255)%Z);;
  call (gopigo3.set_left_eye_color (255, 255, 255)%Z);;
  call gopigo3.close_eyes;;
  call gopigo3.open_eyes;;
  sleep (beat);;
  call gopigo3.close_eyes;;
  call (gopigo3.blinker_off 0);;
  call (gopigo3.blinker_off 1);;
  call gopigo3.stop;;
  call (gopigo3.set_speed 500);;
  mret "static".

Definition _gopigo3_command_deliveraltoids : Prog string :=
  call (gopigo3.set_speed 300);;
  call gopigo3.init_servo;; (* servo = ... *)
  let turn90 := (84)%Q in
  (* waypoint 1 -> 2 *)
  call (gopigo3.drive_inches 49);;
  call (gopigo3.turn_degrees turn90);;
  (* waypoint 2 -> 3 *)
  call (gopigo3.drive_inches 76);;
  call (gopigo3.turn_degrees (turn90 - 2));;
  (* waypoint 3 -> 4 *)
  call (gopigo3.drive_inches 40);;
  call (gopigo3.turn_degrees (turn90 * 2));;
  call (gopigo3.drive_inches (-36));;
  (* waypoint 4 -> 5 *)
  call (gopigo3.set_speed 100);;
  call (gopigo3.drive_inches (-48));;
  call (gopigo3.set_speed 300);;
  call (gopigo3.turn_degrees (- turn90 + 2));;
  (* waypoint 5 -> 6 *)
  call (gopigo3.drive_inches 80);;
  call (gopigo3.turn_degrees (- turn90));;
  call gopigo3.stop;;
  mret "static".

(** ** The instance: key bindings and menu order *)

(** A dict display [{k1 : v1, k2 : v2, ...}]: the pairs are stored from left
    to right, a later pair replacing an earlier one with the same key. *)
Definition dict_literal (items : list (string * (string * string)))
  : gmap string (string * string) :=
  foldl (λ m kv, <[kv.1 := kv.2]> m) ∅ items.

(** The value of a binding is the two-element list [description, suffix];
    [KEY_DESCRIPTION = 0] selects its first and [KEY_FUNC_SUFFIX = 1] its
    second element. *)
Definition KEY_DESCRIPTION (binding : string * string) : string := binding.1.
Definition KEY_FUNC_SUFFIX (binding : string * string) : string := binding.2.

Record Self : Type := mkSelf {
  keybindings : gmap string (string * string);
  order_of_keys : list string
}.

Definition the_keybindings : gmap string (string * string) :=
  dict_literal [
    ("w", ("Move the GoPiGo3 forward", "forward"));
    ("s", ("Move the GoPiGo3 backward", "backward"));
    ("a", ("Turn the GoPiGo3 to the left", "left"));
    ("d", ("Turn the GoPiGo3 to the right", "right"));
    ("<SPACE>", ("Stop the GoPiGo3 from moving", "stop"));

    ("<F1>", ("Drive forward for 10 centimeters", "forward10cm"));
    ("<F2>", ("Drive forward for 10 inches", "forward10in"));
    ("<F3>", ("Drive forward for 360 degrees (aka 1 wheel rotation)", "forwardturn"));

    ("1", ("Turn ON/OFF left blinker of the GoPiGo3", "leftblinker"));
    ("2", ("Turn ON/OFF right blinker of the GoPiGo3", "rightblinker"));
    ("3", ("Turn ON/OFF both blinkers of the GoPiGo3", "blinkers"));
    ("5", ("Do a little boogie woogie", "activatedance"));
    ("7", ("Deliver altoids from kitchen to computer", "deliveraltoids"));

    ("8", ("Turn ON/OFF left eye of the GoPiGo3", "lefteye"));
    ("9", ("Turn ON/OFF right eye of the GoPiGo3", "righteye"));
    ("0", ("Turn ON/OFF both eyes of the GoPiGo3", "eyes"));

    ("e", ("Change the eyes' color on the go", "eyescolor"));

    ("<ESC>", ("Exit", "exit"))
  ].

Definition the_order_of_keys : list string :=
  ["w"; "s"; "a"; "d"; "<SPACE>"; "<F1>"; "<F2>"; "<F3>"; "1"; "2"; "3"; "5";
   "7"; "8"; "9"; "0"; "e"; "<ESC>"].

(** [__init__] *)
Definition init : Self := mkSelf the_keybindings the_order_of_keys.

(** ** Dispatch *)

(** The attributes of the object whose name starts with
    [_gopigo3_command_]: the command methods and nothing else. *)
Definition command_methods : list (string * Prog string) :=
  [ ("_gopigo3_command_forward", _gopigo3_command_forward);
    ("_gopigo3_command_backward", _gopigo3_command_backward);
    ("_gopigo3_command_left", _gopigo3_command_left);
    ("_gopigo3_command_right", _gopigo3_command_right);
    ("_gopigo3_command_stop", _gopigo3_command_stop);
    ("_gopigo3_command_forward10cm", _gopigo3_command_forward10cm);
    ("_gopigo3_command_forward10in", _gopigo3_command_forward10in);
    ("_gopigo3_command_forwardturn", _gopigo3_command_forwardturn);
    ("_gopigo3_command_leftblinker", _gopigo3_command_leftblinker);
    ("_gopigo3_command_rightblinker", _gopigo3_command_rightblinker);
    ("_gopigo3_command_blinkers", _gopigo3_command_blinkers);
    ("_gopigo3_command_lefteye", _gopigo3_command_lefteye);
    ("_gopigo3_command_righteye", _gopigo3_command_righteye);
    ("_gopigo3_command_eyes", _gopigo3_command_eyes);
    ("_gopigo3_command_eyescolor", _gopigo3_command_eyescolor);
    ("_gopigo3_command_exit", _gopigo3_command_exit);
    ("_gopigo3_command_activatedance", _gopigo3_command_activatedance);
    ("_gopigo3_command_deliveraltoids", _gopigo3_command_deliveraltoids) ].

Fixpoint assoc {V : Type} (name : string) (l : list (string * V)) : option V :=
  match l with
  | [] => None
  | (n, v) :: rest => if String.eqb name n then Some v else assoc name rest
  end.

(** [getattr(self, name, default)] for a name built on the prefix
    [_gopigo3_command_]. *)
Definition getattr (name : string) (default : Prog string) : Prog string :=
  match assoc name command_methods with
  | Some method => method
  | None => default
  end.

Definition executeKeyboardJob (self : Self) (argument : string) : Prog string :=
  let method_prefix := "_gopigo3_command_" in
  let method_suffix :=
    match keybindings self !! argument with
    | Some binding => KEY_FUNC_SUFFIX binding
    | None => "" (* except KeyError *)
    end in
  let method_name := method_prefix +:+ method_suffix in
  let method := getattr method_name (mret "nothing") in
  method.

(** ** The menu *)

(** A Python [str] is a sequence of characters (code points); a [string]
    here holds its UTF-8 encoding, one byte per element.  The bytes
    [10xxxxxx] continue a character, every other byte starts one, so the
    number of characters, Python's [len], is the number of bytes that are
    not continuation bytes. *)
Definition is_continuation (a : Ascii.ascii) : bool :=
  match a with
  | Ascii.Ascii _ _ _ _ _ _ b6 b7 => b7 && negb b6
  end.

Fixpoint code_points (s : string) : nat :=
  match s with
  | EmptyString => 0
  | String a rest => (if is_continuation a then 0 else 1) + code_points rest
  end.

(** ["{:8}".format(key)]: the key, padded with spaces on the right to eight
    characters; the width counts characters, not bytes. *)
Definition pad8 (key : string) : string :=
  key +:+ String.concat "" (replicate (8 - code_points key) " ").

(** ["\r[key {:8}] :  {}".format(key, description)] *)
Definition menu_line (key description : string) : string :=
  String (Ascii.ascii_of_nat 13) "[key " +:+ pad8 key +:+ "] :  " +:+ description.

Definition mismatch_message : string :=
  "Error: Keys found GoPiGo3WithKeyboard.order_of_keys don't match with those in GoPiGo3WithKeyboard.keybindings.".

(** The [for] loop of [drawMenu] inside its [try]: the first key that is
    not bound raises [KeyError], which ends the loop and prints the
    message of the [except] clause. *)
Fixpoint drawMenu_loop (kb : gmap string (string * string)) (keys : list string)
  : Prog unit :=
  match keys with
  | [] => mret tt
  | key :: rest =>
      match kb !! key with
      | Some binding =>
          print (menu_line key (KEY_DESCRIPTION binding));;
          drawMenu_loop kb rest
      | None => print mismatch_message
      end
  end.

Definition drawMenu (self : Self) : Prog unit :=
  drawMenu_loop (keybindings self) (order_of_keys self).

(** A world at start-up and an environment without faults. *)
Definition startup : World := mkWorld class_flags 0 0.
Definition healthy : Env := mkEnv (λ _, false) (λ _, 0%Z).


(** ** The two players, as the specification words them

    The class has no player function: each routine is a straight-line
    method.  The definitions of this section follow the specification; the
    theorems below compare them with the methods. *)

Module Sequencer.
(** A command plus an optional duration to wait after issuing it. *)
Record MotionSegment : Type := mkSegment {
  command : gopigo3.Call;
  duration : option Q
}.

(** Issue the command of each segment in order and, if a duration is
    present, block for that duration before the next segment. *)
Fixpoint play (choreography : list MotionSegment) : Prog unit :=
  match choreography with
  | [] => mret tt
  | segment :: rest =>
      call (command segment);;
      match duration segment with
      | Some secs => sleep secs
      | None => mret tt
      end;;
      play rest
  end.

(** What one segment makes happen when nothing fails. *)
Definition segment_events (segment : MotionSegment) : list Event :=
  EvCall (command segment) ::
  match duration segment with
  | Some secs => [EvSleep secs]
  | None => []
  end.

(** Total nominal duration: the sum of all present durations. *)
Definition nominal_duration (choreography : list MotionSegment) : Q :=
  foldr Qplus 0%Q (omap duration choreography).

(** The segments a program is made of, read off in program order: each
    hardware call, with the sleep that directly follows it if there is
    one.  Reading stops at the first effect of another kind. *)
Fixpoint segments {A : Type} (p : Prog A) : list MotionSegment :=
  match p with
  | Act c k =>
      match k with
      | Sleep secs k' => mkSegment c (Some secs) :: segments k'
      | _ => mkSegment c None :: segments k
      end
  | _ => []
  end.
End Sequencer.

Module Route.
Inductive LegOp : Type :=
| DriveDistanceInches (value : Q)
| TurnDegrees (value : Q).

Record WaypointLeg : Type := mkLeg {
  speedOverride : option Q;
  op : LegOp
}.

Definition op_call (o : LegOp) : gopigo3.Call :=
  match o with
  | DriveDistanceInches value => gopigo3.drive_inches value
  | TurnDegrees value => gopigo3.turn_degrees value
  end.

(** For each leg: if a speed override is present issue [SetSpeed] first,
    then issue the drive or turn call.  No waits. *)
Fixpoint play (route : list WaypointLeg) : Prog unit :=
  match route with
  | [] => mret tt
  | leg :: rest =>
      match speedOverride leg with
      | Some units => call (gopigo3.set_speed units)
      | None => mret tt
      end;;
      call (op_call (op leg));;
      play rest
  end.

Definition leg_calls (leg : WaypointLeg) : list gopigo3.Call :=
  match speedOverride leg with
  | Some units => [gopigo3.set_speed units]
  | None => []
  end ++ [op_call (op leg)].
End Route.

(** The dance, read as a choreography. *)
Definition dance_choreography : list Sequencer.MotionSegment :=
  Sequencer.segments _gopigo3_command_activatedance.

(** The choreography of the dance as it is authored: the statements of
    [_gopigo3_command_activatedance] in the order of the source, each call on
    [self.gopigo3] with the [sleep] that follows it, if one does; the
    [while] loop is written out turn by turn. *)
Definition authored_dance : list Sequencer.MotionSegment :=
  let beat := (60/128)%Q in
  let turn90Deg := (310)%Q in
  let starDriveDiameter := (380)%Q in
  let starDriveHypotenuse := (starDriveDiameter / 2 * 1.141)%Q in
  let starTurnSpeed135 := (243)%Q in
  let walkSpeed := (250)%Q in
  let figure8speed := (320)%Q in
  [ Sequencer.mkSegment (gopigo3.set_speed 300) None;
    Sequencer.mkSegment gopigo3.close_eyes None;
    (* beat 0 *)
    Sequencer.mkSegment (gopigo3.steer 100 100) (Some (beat * 2)%Q);
    Sequencer.mkSegment gopigo3.stop (Some (beat * 2)%Q);
    Sequencer.mkSegment (gopigo3.steer 100 100) (Some (beat * 2)%Q);
    Sequencer.mkSegment gopigo3.stop (Some (beat * 2)%Q);
    Sequencer.mkSegment (gopigo3.set_speed 300) None;
    Sequencer.mkSegment (gopigo3.steer 100 13.5) (Some (beat*8)%Q);
    (* beat 16 *)
    Sequencer.mkSegment (gopigo3.set_speed 300) None;
    Sequencer.mkSegment (gopigo3.steer 100 100) (Some (beat / 2)%Q);
    Sequencer.mkSegment gopigo3.stop (Some (beat / 2)%Q);
    Sequencer.mkSegment (gopigo3.steer 100 100) (Some (beat / 2)%Q);
    Sequencer.mkSegment gopigo3.stop (Some (beat / 2)%Q);
    Sequencer.mkSegment (gopigo3.steer 100 100) (Some (beat / 2)%Q);
    Sequencer.mkSegment gopigo3.stop (Some (beat / 2)%Q);
    Sequencer.mkSegment (gopigo3.steer 100 100) (Some (beat / 2)%Q);
    Sequencer.mkSegment gopigo3.stop (Some (beat / 2)%Q);
    Sequencer.mkSegment (gopigo3.steer 100 100) (Some (beat / 2)%Q);
    Sequencer.mkSegment gopigo3.stop (Some (beat / 2)%Q);
    Sequencer.mkSegment (gopigo3.steer 100 100) (Some (beat / 2)%Q);
    Sequencer.mkSegment gopigo3.stop (Some (beat / 2)%Q);
    Sequencer.mkSegment (gopigo3.steer 100 100) (Some (beat / 2)%Q);
    Sequencer.mkSegment gopigo3.stop (Some (beat / 2)%Q);
    Sequencer.mkSegment (gopigo3.steer 100 100) (Some (beat / 2)%Q);
    Sequencer.mkSegment gopigo3.stop (Some (beat / 2)%Q);
    (* beat 24 *)
    Sequencer.mkSegment (gopigo3.set_speed starDriveDiameter) None;
    Sequencer.mkSegment (gopigo3.steer 100 100) (Some (beat * 2)%Q);
    Sequencer.mkSegment (gopigo3.set_speed starTurnSpeed135) None;
    Sequencer.mkSegment (gopigo3.steer (-100) 100) (Some (beat * 2)%Q);
    Sequencer.mkSegment (gopigo3.set_speed starDriveHypotenuse) None;
    Sequencer.mkSegment (gopigo3.steer 100 100) (Some (beat * 2)%Q);
    Sequencer.mkSegment (gopigo3.set_speed (starTurnSpeed135 * (90/135))) None;
    Sequencer.mkSegment (gopigo3.steer (-100) 100) (Some (beat * 2)%Q);
    Sequencer.mkSegment (gopigo3.set_speed ((starDriveHypotenuse))) None;
    Sequencer.mkSegment (gopigo3.steer 100 100) (Some (beat * 2)%Q);
    Sequencer.mkSegment (gopigo3.set_speed (starTurnSpeed135 * (90/135))) None;
    Sequencer.mkSegment (gopigo3.steer (-100) 100) (Some (beat * 2)%Q);
    Sequencer.mkSegment (gopigo3.set_speed starDriveHypotenuse) None;
    Sequencer.mkSegment (gopigo3.steer 100 100) (Some (beat * 2)%Q);
    Sequencer.mkSegment (gopigo3.set_speed starTurnSpeed135) None;
    Sequencer.mkSegment (gopigo3.steer (-100) 100) (Some (beat * 2)%Q);
    Sequencer.mkSegment (gopigo3.set_speed starDriveDiameter) None;
    Sequencer.mkSegment (gopigo3.steer 100 100) (Some (beat * 2)%Q);
    (* Beat 42 *)
    Sequencer.mkSegment (gopigo3.set_speed turn90Deg) None;
    Sequencer.mkSegment (gopigo3.steer 100 (-100)) (Some (beat)%Q);
    Sequencer.mkSegment (gopigo3.set_speed 250) None;
    (* while slowCounter > 0, slowCounter = 12, 11, ..., 1 *)
    Sequencer.mkSegment (gopigo3.set_speed (12 * 25)) None;
    Sequencer.mkSegment (gopigo3.steer 100 100) (Some (beat)%Q);
    Sequencer.mkSegment (gopigo3.set_speed (11 * 25)) None;
    Sequencer.mkSegment (gopigo3.steer 100 100) (Some (beat)%Q);
    Sequencer.mkSegment (gopigo3.set_speed (10 * 25)) None;
    Sequencer.mkSegment (gopigo3.steer 100 100) (Some (beat)%Q);
    Sequencer.mkSegment (gopigo3.set_speed (9 * 25)) None;
    Sequencer.mkSegment (gopigo3.steer 100 100) (Some (beat)%Q);
    Sequencer.mkSegment (gopigo3.set_speed (8 * 25)) None;
    Sequencer.mkSegment (gopigo3.steer 100 100) (Some (beat)%Q);
    Sequencer.mkSegment (gopigo3.set_speed (7 * 25)) None;
    Sequencer.mkSegment (gopigo3.steer 100 100) (Some (beat)%Q);
    Sequencer.mkSegment (gopigo3.set_speed (6 * 25)) None;
    Sequencer.mkSegment (gopigo3.steer 100 100) (Some (beat)%Q);
    Sequencer.mkSegment (gopigo3.set_speed (5 * 25)) None;
    Sequencer.mkSegment (gopigo3.steer 100 100) (Some (beat)%Q);
    Sequencer.mkSegment (gopigo3.set_speed (4 * 25)) None;
    Sequencer.mkSegment (gopigo3.steer 100 100) (Some (beat)%Q);
    Sequencer.mkSegment (gopigo3.set_speed (3 * 25)) None;
    Sequencer.mkSegment (gopigo3.steer 100 100) (Some (beat)%Q);
    Sequencer.mkSegment (gopigo3.set_speed (2 * 25)) None;
    Sequencer.mkSegment (gopigo3.steer 100 100) (Some (beat)%Q);
    Sequencer.mkSegment (gopigo3.set_speed (1 * 25)) None;
    Sequencer.mkSegment (gopigo3.steer 100 100) (Some (beat)%Q);
    (* Beat 55 *)
    Sequencer.mkSegment (gopigo3.set_speed turn90Deg) None;
    Sequencer.mkSegment (gopigo3.steer 100 (-100)) (Some (beat)%Q);
    Sequencer.mkSegment (gopigo3.set_speed 300) None;
    Sequencer.mkSegment (gopigo3.steer 100 100) (Some (beat / 2)%Q);
    Sequencer.mkSegment gopigo3.stop (Some (beat / 2)%Q);
    Sequencer.mkSegment (gopigo3.steer 100 100) (Some (beat / 2)%Q);
    Sequencer.mkSegment gopigo3.stop (Some (beat / 2)%Q);
    Sequencer.mkSegment (gopigo3.steer 100 100) (Some (beat / 2)%Q);
    Sequencer.mkSegment gopigo3.stop (Some (beat / 2)%Q);
    Sequencer.mkSegment (gopigo3.steer 100 100) (Some (beat / 2)%Q);
    Sequencer.mkSegment gopigo3.stop (Some (beat / 2)%Q);
    Sequencer.mkSegment (gopigo3.steer 100 100) (Some (beat / 2)%Q);
    Sequencer.mkSegment gopigo3.stop (Some (beat / 2)%Q);
    Sequencer.mkSegment (gopigo3.steer 100 100) (Some (beat / 2)%Q);
    Sequencer.mkSegment gopigo3.stop (Some (beat / 2)%Q);
    Sequencer.mkSegment (gopigo3.steer 100 100) (Some (beat / 2)%Q);
    Sequencer.mkSegment gopigo3.stop (Some (beat / 2)%Q);
    Sequencer.mkSegment (gopigo3.steer 100 100) (Some (beat / 2)%Q);
    Sequencer.mkSegment gopigo3.stop (Some (beat / 2)%Q);
    (* Beat 64 *)
    Sequencer.mkSegment (gopigo3.set_speed turn90Deg) None;
    Sequencer.mkSegment (gopigo3.steer 100 (-100)) (Some (beat)%Q);
    Sequencer.mkSegment (gopigo3.set_speed walkSpeed) None;
    Sequencer.mkSegment gopigo3.forward (Some (beat * 2)%Q);
    Sequencer.mkSegment (gopigo3.steer 100 (-100)) (Some (beat/2)%Q);
    Sequencer.mkSegment (gopigo3.steer (-100) 100) (Some (beat/2)%Q);
    Sequencer.mkSegment (gopigo3.set_speed walkSpeed) None;
    Sequencer.mkSegment gopigo3.forward (Some (beat * 2)%Q);
    (* Beat 70 *)
    Sequencer.mkSegment (gopigo3.steer 100 (-100)) (Some (beat/2)%Q);
    Sequencer.mkSegment (gopigo3.steer (-100) 100) (Some (beat/2)%Q);
    Sequencer.mkSegment (gopigo3.set_speed turn90Deg) None;
    Sequencer.mkSegment (gopigo3.steer (-100) 100) (Some (beat)%Q);
    Sequencer.mkSegment (gopigo3.set_speed walkSpeed) None;
    Sequencer.mkSegment gopigo3.forward (Some (beat * 2)%Q);
    Sequencer.mkSegment (gopigo3.steer 100 (-100)) (Some (beat/2)%Q);
    Sequencer.mkSegment (gopigo3.steer (-100) 100) (Some (beat/2)%Q);
    Sequencer.mkSegment (gopigo3.set_speed walkSpeed) None;
    Sequencer.mkSegment gopigo3.forward (Some (beat * 2)%Q);
    Sequencer.mkSegment (gopigo3.steer 100 (-100)) (Some (beat/2)%Q);
    Sequencer.mkSegment (gopigo3.steer (-100) 100) (Some (beat/2)%Q);
    (* Beat 78 *)
    Sequencer.mkSegment (gopigo3.set_speed turn90Deg) None;
    Sequencer.mkSegment (gopigo3.steer (-100) 100) (Some (beat)%Q);
    Sequencer.mkSegment (gopigo3.set_speed walkSpeed) None;
    Sequencer.mkSegment gopigo3.forward (Some (beat * 1)%Q);
    Sequencer.mkSegment gopigo3.open_eyes None;
    Sequencer.mkSegment (gopigo3.blinker_on 0) None;
    Sequencer.mkSegment (gopigo3.blinker_on 1) None;
    Sequencer.mkSegment (gopigo3.set_speed walkSpeed) None;
    Sequencer.mkSegment gopigo3.forward (Some (beat * 1)%Q);
    Sequencer.mkSegment (gopigo3.steer 100 (-100)) (Some (beat/2)%Q);
    Sequencer.mkSegment (gopigo3.steer (-100) 100) (Some (beat/2)%Q);
    Sequencer.mkSegment (gopigo3.set_speed walkSpeed) None;
    Sequencer.mkSegment gopigo3.forward (Some (beat * 2)%Q);
    Sequencer.mkSegment (gopigo3.steer 100 (-100)) (Some (beat/2)%Q);
    Sequencer.mkSegment (gopigo3.steer (-100) 100) (Some (beat/2)%Q);
    Sequencer.mkSegment (gopigo3.set_speed turn90Deg) None;
    Sequencer.mkSegment (gopigo3.steer 100 (-100)) (Some (beat)%Q);
    (* Beat 86 *)
    Sequencer.mkSegment (gopigo3.set_speed walkSpeed) None;
    Sequencer.mkSegment gopigo3.forward (Some (beat * 4)%Q);
    Sequencer.mkSegment (gopigo3.set_speed turn90Deg) None;
    Sequencer.mkSegment (gopigo3.steer 100 (-100)) (Some (beat * 1)%Q);
    Sequencer.mkSegment (gopigo3.set_speed walkSpeed) None;
    Sequencer.mkSegment gopigo3.forward (Some (beat * 3)%Q);
    (* Beat 94 *)
    Sequencer.mkSegment (gopigo3.set_speed figure8speed) None;
    Sequencer.mkSegment (gopigo3.steer 100 20) (Some (beat * 4)%Q);
    Sequencer.mkSegment (gopigo3.set_speed figure8speed) None;
    Sequencer.mkSegment (gopigo3.steer 20 100) (Some (beat * 4)%Q);
    (* Beat 102 *)
    Sequencer.mkSegment (gopigo3.set_speed turn90Deg) None;
    Sequencer.mkSegment (gopigo3.steer (-100) 100) (Some (beat*8)%Q);
    Sequencer.mkSegment (gopigo3.set_speed turn90Deg) None;
    Sequencer.mkSegment (gopigo3.steer 100 (-100)) (Some (beat*2)%Q);
    (* Beat 112 *)
    Sequencer.mkSegment (gopigo3.set_speed figure8speed) None;
    Sequencer.mkSegment (gopigo3.steer 20 100) (Some (beat * 4)%Q);
    Sequencer.mkSegment (gopigo3.set_speed figure8speed) None;
    Sequencer.mkSegment (gopigo3.steer 100 20) (Some (beat * 4)%Q);
    (* Beat 120 *)
    Sequencer.mkSegment (gopigo3.set_speed turn90Deg) None;
    Sequencer.mkSegment (gopigo3.steer (-100) 100) None;
    Sequencer.mkSegment (gopigo3.set_right_eye_color (255, 0, 0)%Z) None;
    Sequencer.mkSegment (gopigo3.set_left_eye_color (0, 0, 255)%Z) None;
    Sequencer.mkSegment gopigo3.close_eyes None;
    Sequencer.mkSegment gopigo3.open_eyes (Some (beat)%Q);
    Sequencer.mkSegment (gopigo3.set_right_eye_color (0, 255, 0)%Z) None;
    Sequencer.mkSegment (gopigo3.set_left_eye_color (255, 0, 0)%Z) None;
    Sequencer.mkSegment gopigo3.close_eyes None;
    Sequencer.mkSegment gopigo3.open_eyes (Some (beat)%Q);
    Sequencer.mkSegment (gopigo3.set_right_eye_color (0, 0, 255)%Z) None;
    Sequencer.mkSegment (gopigo3.set_left_eye_color (0, 255, 0)%Z) None;
    Sequencer.mkSegment gopigo3.close_eyes None;
    Sequencer.mkSegment gopigo3.open_eyes (Some (beat)%Q);
    Sequencer.mkSegment (gopigo3.set_right_eye_color (255, 255, 255)%Z) None;
    Sequencer.mkSegment (gopigo3.set_left_eye_color (255, 255, 255)%Z) None;
    Sequencer.mkSegment gopigo3.close_eyes None;
    Sequencer.mkSegment gopigo3.open_eyes (Some (beat)%Q);
    Sequencer.mkSegment (gopigo3.set_speed turn90Deg) None;
    Sequencer.mkSegment (gopigo3.steer 100 (-100)) None;
    Sequencer.mkSegment (gopigo3.set_right_eye_color (255, 0, 0)%Z) None;
    Sequencer.mkSegment (gopigo3.set_left_eye_color (0, 0, 255)%Z) None;
    Sequencer.mkSegment gopigo3.close_eyes None;
    Sequencer.mkSegment gopigo3.open_eyes (Some (beat)%Q);
    Sequencer.mkSegment (gopigo3.set_right_eye_color (0, 255, 0)%Z) None;
    Sequencer.mkSegment (gopigo3.set_left_eye_color (255, 0, 0)%Z) None;
    Sequencer.mkSegment gopigo3.close_eyes None;
    Sequencer.mkSegment gopigo3.open_eyes (Some (beat)%Q);
    Sequencer.mkSegment (gopigo3.set_right_eye_color (0, 0, 255)%Z) None;
    Sequencer.mkSegment (gopigo3.set_left_eye_color (0, 255, 0)%Z) None;
    Sequencer.mkSegment gopigo3.close_eyes None;
    Sequencer.mkSegment gopigo3.open_eyes (Some (beat)%Q);
    Sequencer.mkSegment (gopigo3.set_right_eye_color (255, 255, 255)%Z) None;
    Sequencer.mkSegment (gopigo3.set_left_eye_color (255, 255, 255)%Z) None;
    Sequencer.mkSegment gopigo3.close_eyes None;
    Sequencer.mkSegment gopigo3.open_eyes (Some (beat)%Q);
    Sequencer.mkSegment gopigo3.close_eyes None;
    Sequencer.mkSegment (gopigo3.blinker_off 0) None;
    Sequencer.mkSegment (gopigo3.blinker_off 1) None;
    Sequencer.mkSegment gopigo3.stop None;
    Sequencer.mkSegment (gopigo3.set_speed 500) None ].

(** The legs of the delivery, in the order of the method's statements. *)
Definition delivery_route : list Route.WaypointLeg :=
  [ Route.mkLeg None (Route.DriveDistanceInches 49);
    Route.mkLeg None (Route.TurnDegrees 84);
    Route.mkLeg None (Route.DriveDistanceInches 76);
    Route.mkLeg None (Route.TurnDegrees 82);
    Route.mkLeg None (Route.DriveDistanceInches 40);
    Route.mkLeg None (Route.TurnDegrees 168);
    Route.mkLeg None (Route.DriveDistanceInches (-36));
    Route.mkLeg (Some 100%Q) (Route.DriveDistanceInches (-48));
    Route.mkLeg (Some 300%Q) (Route.TurnDegrees (-82));
    Route.mkLeg None (Route.DriveDistanceInches 80);
    Route.mkLeg None (Route.TurnDegrees (-84)) ].

(** The examples of the specification. *)
Definition example_choreography : list Sequencer.MotionSegment :=
  [ Sequencer.mkSegment (gopigo3.steer 100 100) (Some 1%Q);
    Sequencer.mkSegment gopigo3.stop (Some 1%Q);
    Sequencer.mkSegment (gopigo3.set_speed 300) None ].

Definition example_route : list Route.WaypointLeg :=
  [ Route.mkLeg None (Route.DriveDistanceInches 49);
    Route.mkLeg None (Route.TurnDegrees 84);
    Route.mkLeg None (Route.DriveDistanceInches 76) ].

(** ** Notions used in the statements *)

(** What it means for a run to have stopped at the [k]-th segment of the
    choreography [c]: the run raised, the calls attempted are the commands
    of the first [k] segments and nothing else, and the failing call is the
    last thing that happened. *)
Definition aborted_at {A : Type} (r : Result A)
    (c : list Sequencer.MotionSegment) (k : nat) : Prop :=
  outcome r = Raised ActuatorError ∧
  calls (trace r) = Sequencer.command <$> take k c ∧
  length (calls (trace r)) = k ∧
  ∃ failing, last (trace r) = Some (EvCall failing).

(** An environment whose second hardware call raises. *)
Definition second_call_raises : Env := mkEnv (λ n, Nat.eqb n 1) (λ _, 0%Z).

(** The method that toggles one attribute alone. *)
Definition individual_toggle (f : Attr) : Prog string :=
  match f with
  | LeftBlinkerOn => _gopigo3_command_leftblinker
  | RightBlinkerOn => _gopigo3_command_rightblinker
  | LeftEyeOn => _gopigo3_command_lefteye
  | RightEyeOn => _gopigo3_command_righteye
  end.

(** The hardware call an individual toggle makes to switch its output on
    or off. *)
Definition toggle_call (f : Attr) (on : bool) : gopigo3.Call :=
  match f, on with
  | LeftBlinkerOn, true => gopigo3.led_on 1
  | LeftBlinkerOn, false => gopigo3.led_off 1
  | RightBlinkerOn, true => gopigo3.led_on 0
  | RightBlinkerOn, false => gopigo3.led_off 0
  | LeftEyeOn, true => gopigo3.open_left_eye
  | LeftEyeOn, false => gopigo3.close_left_eye
  | RightEyeOn, true => gopigo3.open_right_eye
  | RightEyeOn, false => gopigo3.close_right_eye
  end.

(** The colour the handler draws in the world [w]: three successive draws
    of the random source, each brought into [0, 255]. *)
Definition drawn_colour (env : Env) (w : World) : Z * Z * Z :=
  (randint_value 0 255 (entropy env (draws_made w)),
   randint_value 0 255 (entropy env (S (draws_made w))),
   randint_value 0 255 (entropy env (S (S (draws_made w))))).

Definition in_byte_range (colour : Z * Z * Z) : Prop :=
  (0 ≤ colour.1.1 ≤ 255)%Z ∧ (0 ≤ colour.1.2 ≤ 255)%Z ∧ (0 ≤ colour.2 ≤ 255)%Z.

(** A registry with one binding more than the class's, whose suffix names
    no method. *)
Definition dangling : Self :=
  mkSelf (<["x" := ("Fly", "fly")]> the_keybindings) the_order_of_keys.

(** The classifications other than ["nothing"]. *)
Definition is_classification (cls : string) : Prop :=
  cls = "moving" ∨ cls = "path" ∨ cls = "static" ∨ cls = "exit".



(** ** The rest of the class *)

(** [drawLogo].  None of the backslashes of the banner starts an escape
    sequence of Python, so each stands for itself. *)
Definition drawLogo : Prog unit :=
  print "   _____       _____ _  _____         ____  ";;
  print "  / ____|     |  __ (_)/ ____|       |___ \ ";;
  print " | |  __  ___ | |__) || |  __  ___     __) |";;
  print " | | |_ |/ _ \|  ___/ | | |_ |/ _ \   |__ < ";;
  print " | |__| | (_) | |   | | |__| | (_) |  ___) |";;
  print "  \_____|\___/|_|   |_|\_____|\___/  |____/ ";;
  print "                                            ".

(** The character ["\n"]. *)
Definition newline : string := String (Ascii.ascii_of_nat 10) "".

(** [drawDescription] *)
Definition drawDescription : Prog unit :=
  print (newline +:+ "Press the following keys to run the features of the GoPiGo3.");;
  print ("To move the motors, make sure you have a fresh set of batteries powering the GoPiGo3." +:+ newline).

(** ** More notions used in the statements *)

(** The kinds of effect a program can have. *)
Inductive Effect : Type :=
| HardwareCall
| Sleeping
| RandomDraw
| FlagRead
| FlagWrite
| Printing.

(** The program has no effect of kind [e], on any of its paths. *)
Fixpoint free_of {A : Type} (e : Effect) (p : Prog A) : Prop :=
  match p with
  | Ret _ => True
  | Act _ k => e ≠ HardwareCall ∧ free_of e k
  | Sleep _ k => e ≠ Sleeping ∧ free_of e k
  | RandInt _ _ k => e ≠ RandomDraw ∧ ∀ z, free_of e (k z)
  | GetAttr _ k => e ≠ FlagRead ∧ ∀ v, free_of e (k v)
  | SetAttr _ _ k => e ≠ FlagWrite ∧ free_of e k
  | Print _ k => e ≠ Printing ∧ free_of e k
  end.

(** The keys whose method makes one hardware call and returns: the call
    and the classification returned. *)
Definition single_call (key : string) : option (gopigo3.Call * string) :=
  if String.eqb key "w" then Some (gopigo3.forward, "moving")
  else if String.eqb key "s" then Some (gopigo3.backward, "moving")
  else if String.eqb key "a" then Some (gopigo3.left, "moving")
  else if String.eqb key "d" then Some (gopigo3.right, "moving")
  else if String.eqb key "<SPACE>" then Some (gopigo3.stop, "moving")
  else if String.eqb key "<F1>" then Some (gopigo3.drive_cm 10, "path")
  else if String.eqb key "<F2>" then Some (gopigo3.drive_inches 10, "path")
  else if String.eqb key "<F3>" then Some (gopigo3.drive_degrees 360, "path")
  else None.

(** The keys of the six toggle methods. *)
Definition toggle_keys : list string := ["1"; "2"; "3"; "8"; "9"; "0"].

(** The world after [n] runs of the same program in succession. *)
Fixpoint presses {A : Type} (env : Env) (p : Prog A) (n : nat) (w : World) : World :=
  match n with
  | O => w
  | S n' => presses env p n' (final (run env p w))
  end.

(** The flags with the attribute [f] negated. *)
Definition toggled (f : Attr) (s : Flags) : Flags :=
  set_attr f (negb (get_attr f s)) s.

(** What one turn of the dance's loop makes happen at the counter value
    [i]. *)
Definition slow_turn (beat : Q) (i : nat) : list Event :=
  [EvCall (gopigo3.set_speed (inject_Z (Z.of_nat i) * 25));
   EvCall (gopigo3.steer 100 100);
   EvSleep beat].

(** The line of the menu for a listed key, when the key is bound. *)
Definition line_of (kb : gmap string (string * string)) (key : string)
  : option string :=
  (λ binding, menu_line key (KEY_DESCRIPTION binding)) <$> kb !! key.

(** The method suffix [executeKeyboardJob] reads from the registry: that
    of the binding of the key, or the empty string. *)
Definition suffix_of (self : Self) (key : string) : string :=
  match keybindings self !! key with
  | Some binding => KEY_FUNC_SUFFIX binding
  | None => ""
  end.

(** The command methods by the part of their name after
    [_gopigo3_command_]. *)
Definition methods_by_suffix : list (string * Prog string) :=
  [ ("forward", _gopigo3_command_forward);
    ("backward", _gopigo3_command_backward);
    ("left", _gopigo3_command_left);
    ("right", _gopigo3_command_right);
    ("stop", _gopigo3_command_stop);
    ("forward10cm", _gopigo3_command_forward10cm);
    ("forward10in", _gopigo3_command_forward10in);
    ("forwardturn", _gopigo3_command_forwardturn);
    ("leftblinker", _gopigo3_command_leftblinker);
    ("rightblinker", _gopigo3_command_rightblinker);
    ("blinkers", _gopigo3_command_blinkers);
    ("lefteye", _gopigo3_command_lefteye);
    ("righteye", _gopigo3_command_righteye);
    ("eyes", _gopigo3_command_eyes);
    ("eyescolor", _gopigo3_command_eyescolor);
    ("exit", _gopigo3_command_exit);
    ("activatedance", _gopigo3_command_activatedance);
    ("deliveraltoids", _gopigo3_command_deliveraltoids) ].

(** The suffixes of the six toggle methods. *)
Definition toggle_suffixes : list string :=
  ["leftblinker"; "rightblinker"; "blinkers"; "lefteye"; "righteye"; "eyes"].

(** Every value the program can return, on any of its paths, satisfies
    [P]. *)
Fixpoint returns_only {A : Type} (P : A → Prop) (p : Prog A) : Prop :=
  match p with
  | Ret a => P a
  | Act _ k => returns_only P k
  | Sleep _ k => returns_only P k
  | RandInt _ _ k => ∀ z, returns_only P (k z)
  | GetAttr _ k => ∀ v, returns_only P (k v)
  | SetAttr _ _ k => returns_only P k
  | Print _ k => returns_only P k
  end.

(** On every path of the program the first effect, apart from reading a
    flag or drawing a random number, is a hardware call. *)
Fixpoint calls_first {A : Type} (p : Prog A) : Prop :=
  match p with
  | Act _ _ => True
  | RandInt _ _ k => ∀ z, calls_first (k z)
  | GetAttr _ k => ∀ v, calls_first (k v)
  | _ => False
  end.

(** The calls that open or close an eye, and the last of them in a
    trace. *)
Definition is_eye_call (c : gopigo3.Call) : bool :=
  match c with
  | gopigo3.open_left_eye | gopigo3.open_right_eye | gopigo3.open_eyes
  | gopigo3.close_left_eye | gopigo3.close_right_eye | gopigo3.close_eyes => true
  | _ => false
  end.

Definition last_eye_call (tr : list Event) : option gopigo3.Call :=
  last (List.filter is_eye_call (calls tr)).

(** The hardware calls the program would make from [w] if none raised. *)
Definition planned {A : Type} (env : Env) (p : Prog A) (w : World)
  : list gopigo3.Call :=
  calls (trace (run (quiet env) p w)).

(** The two combined toggles, by the pair of attributes they act on. *)
Definition combined_toggle (eyes : bool) : Prog string :=
  if eyes then _gopigo3_command_eyes else _gopigo3_command_blinkers.

Definition combined_pair (eyes : bool) : Attr * Attr :=
  if eyes then (LeftEyeOn, RightEyeOn) else (LeftBlinkerOn, RightBlinkerOn).

(** * Properties *)

(** ** Running programs: general facts *)

Lemma run_quiet {A : Type} (env : Env) (p : Prog A) (w : World) :
  never_raises env → run env p w = run (quiet env) p w.
Proof.
  intros Hnever. revert w.
  induction p as [a|c k IH|d k IH|a b k IH|f k IH|f v k IH|s k IH];
    intros w; simpl.
  - reflexivity.
  - rewrite Hnever. by rewrite IH.
  - by rewrite IH.
  - apply IH.
  - apply IH.
  - apply IH.
  - by rewrite IH.
Qed.

(** A run that returns met no fault: it is the run of the same program on
    hardware that never raises. *)
Lemma run_returned_quiet {A : Type} (env : Env) (p : Prog A) (w : World) (v : A) :
  outcome (run env p w) = Returned v → run env p w = run (quiet env) p w.
Proof.
  revert w.
  induction p as [a|c k IH|d k IH|a b k IH|f k IH|f x k IH|s k IH];
    intros w; simpl.
  - reflexivity.
  - destruct (raises env (calls_made w)); simpl; [discriminate|].
    intros H. by rewrite IH.
  - intros H. by rewrite IH.
  - apply IH.
  - apply IH.
  - apply IH.
  - intros H. by rewrite IH.
Qed.

Lemma calls_emit_call {A : Type} (c : gopigo3.Call) (r : Result A) :
  calls (trace (emit (EvCall c) r)) = c :: calls (trace r).
Proof. reflexivity. Qed.

(** Fail-fast, for every program: when the first call to raise is call
    number [S j] of the program, the run raises, and the calls it attempted
    are the first [S j] calls of the fault-free run. *)
Lemma run_fail_fast {A : Type} (env : Env) (p : Prog A) (w : World) (j : nat) :
  raises_at env w j →
  (j < length (calls (trace (run (quiet env) p w))))%nat →
  outcome (run env p w) = Raised ActuatorError ∧
  calls (trace (run env p w)) = take (S j) (calls (trace (run (quiet env) p w))) ∧
  calls_made (final (run env p w)) = (calls_made w + S j)%nat ∧
  (∃ c, last (trace (run env p w)) = Some (EvCall c)).
Proof.
  revert w j.
  induction p as [a|c k IH|d k IH|a b k IH|f k IH|f x k IH|s k IH];
    intros w j [Hbefore Hat]; simpl.
  - intros Hlt. lia.
  - destruct j as [|j].
    + rewrite Nat.add_0_r in Hat. rewrite Hat. simpl.
      intros _. repeat split; [lia|by eexists].
    + assert (Hr : raises env (calls_made w) = false).
      { rewrite <- (Nat.add_0_r (calls_made w)). apply Hbefore. lia. }
      rewrite Hr. simpl. intros Hlt.
      set (w' := mkWorld (flags w) (S (calls_made w)) (draws_made w)).
      destruct (IH w' j) as (Ho & Hc & Hn & [c' Hl]).
      * split.
        -- intros i Hi. simpl. rewrite <- Nat.add_succ_r. apply Hbefore. lia.
        -- simpl. by rewrite <- Nat.add_succ_r.
      * unfold w'. lia.
      * repeat split; [done|by rewrite Hc|unfold w' in *; simpl in Hn; lia|].
        exists c'. destruct (trace (run env k w')); [discriminate|done].
  - intros Hlt. destruct (IH w j) as (Ho & Hc & Hn & [c' Hl]); [done|done|].
    repeat split; [done|done|done|].
    exists c'. destruct (trace (run env k w)); [discriminate|done].
  - intros Hlt.
    exact (IH _ (mkWorld (flags w) (calls_made w) (S (draws_made w))) j
              (conj Hbefore Hat) Hlt).
  - intros Hlt. exact (IH _ w j (conj Hbefore Hat) Hlt).
  - intros Hlt.
    exact (IH (mkWorld (set_attr f x (flags w)) (calls_made w) (draws_made w)) j
              (conj Hbefore Hat) Hlt).
  - intros Hlt. destruct (IH w j) as (Ho & Hc & Hn & [c' Hl]); [done|done|].
    repeat split; [done|done|done|].
    exists c'. destruct (trace (run env k w)); [discriminate|done].
Qed.

(** ** The generic players *)

Lemma sequencer_play_run (env : Env) (c : list Sequencer.MotionSegment) (w : World) :
  run (quiet env) (Sequencer.play c) w =
  mkResult (Returned tt)
           (mkWorld (flags w) (calls_made w + length c) (draws_made w))
           (flat_map Sequencer.segment_events c).
Proof.
  revert w. induction c as [|[cmd [secs|]] rest IH]; intros w.
  - simpl. destruct w. by rewrite Nat.add_0_r.
  - change (run (quiet env) (Sequencer.play (Sequencer.mkSegment cmd (Some secs) :: rest)) w)
      with (emit (EvCall cmd) (emit (EvSleep secs)
             (run (quiet env) (Sequencer.play rest)
                  (mkWorld (flags w) (S (calls_made w)) (draws_made w))))).
    rewrite IH. unfold emit. simpl. by rewrite Nat.add_succ_r.
  - change (run (quiet env) (Sequencer.play (Sequencer.mkSegment cmd None :: rest)) w)
      with (emit (EvCall cmd)
             (run (quiet env) (Sequencer.play rest)
                  (mkWorld (flags w) (S (calls_made w)) (draws_made w)))).
    rewrite IH. unfold emit. simpl. by rewrite Nat.add_succ_r.
Qed.

Lemma calls_segment_events (c : list Sequencer.MotionSegment) :
  calls (flat_map Sequencer.segment_events c) = Sequencer.command <$> c.
Proof.
  induction c as [|[cmd [secs|]] rest IH]; simpl; [done| |];
    unfold calls in *; simpl; by rewrite IH.
Qed.

Lemma sleeps_segment_events (c : list Sequencer.MotionSegment) :
  sleeps (flat_map Sequencer.segment_events c) = omap Sequencer.duration c.
Proof.
  induction c as [|[cmd [secs|]] rest IH]; simpl; [done| |];
    unfold sleeps in *; simpl; by rewrite IH.
Qed.

Lemma route_play_run (env : Env) (route : list Route.WaypointLeg) (w : World) :
  run (quiet env) (Route.play route) w =
  mkResult (Returned tt)
           (mkWorld (flags w)
                    (calls_made w + length (flat_map Route.leg_calls route))
                    (draws_made w))
           (EvCall <$> flat_map Route.leg_calls route).
Proof.
  revert w. induction route as [|[[units|] o] rest IH]; intros w.
  - simpl. destruct w. by rewrite Nat.add_0_r.
  - change (run (quiet env) (Route.play (Route.mkLeg (Some units) o :: rest)) w)
      with (emit (EvCall (gopigo3.set_speed units)) (emit (EvCall (Route.op_call o))
             (run (quiet env) (Route.play rest)
                  (mkWorld (flags w) (S (S (calls_made w))) (draws_made w))))).
    rewrite IH. unfold emit. simpl. by rewrite !Nat.add_succ_r.
  - change (run (quiet env) (Route.play (Route.mkLeg None o :: rest)) w)
      with (emit (EvCall (Route.op_call o))
             (run (quiet env) (Route.play rest)
                  (mkWorld (flags w) (S (calls_made w)) (draws_made w)))).
    rewrite IH. unfold emit. simpl. by rewrite Nat.add_succ_r.
Qed.

Lemma calls_EvCall (l : list gopigo3.Call) : calls (EvCall <$> l) = l.
Proof. induction l as [|c l IH]; [done|]. unfold calls in *. cbn. f_equal. exact IH. Qed.

(** ** The scripted methods are playbacks *)

Lemma dance_is_playback :
  _gopigo3_command_activatedance =
  (Sequencer.play dance_choreography;; mret "static").
Proof. vm_compute. reflexivity. Qed.

Lemma dance_authored : dance_choreography = authored_dance.
Proof. vm_compute. reflexivity. Qed.

Lemma delivery_is_playback :
  _gopigo3_command_deliveraltoids =
  (call (gopigo3.set_speed 300);;
   call gopigo3.init_servo;;
   Route.play delivery_route;;
   call gopigo3.stop;;
   mret "static").
Proof. vm_compute. reflexivity. Qed.

Lemma dance_quiet_run (env : Env) (w : World) :
  run (quiet env) _gopigo3_command_activatedance w =
  mkResult (Returned "static")
           (mkWorld (flags w) (calls_made w + length dance_choreography) (draws_made w))
           (flat_map Sequencer.segment_events dance_choreography).
Proof.
  replace (calls_made w + length dance_choreography)%nat
    with (length dance_choreography + calls_made w)%nat by lia.
  vm_compute. reflexivity.
Qed.

Lemma delivery_quiet_run (env : Env) (w : World) :
  run (quiet env) _gopigo3_command_deliveraltoids w =
  mkResult (Returned "static")
           (mkWorld (flags w) (16 + calls_made w) (draws_made w))
           (EvCall <$> ([gopigo3.set_speed 300; gopigo3.init_servo]
                        ++ flat_map Route.leg_calls delivery_route
                        ++ [gopigo3.stop])).
Proof. vm_compute. reflexivity. Qed.

Lemma dispatch_dance : executeKeyboardJob init "5" = _gopigo3_command_activatedance.
Proof. vm_compute. reflexivity. Qed.

Lemma dispatch_delivery : executeKeyboardJob init "7" = _gopigo3_command_deliveraltoids.
Proof. vm_compute. reflexivity. Qed.

Lemma aborted_at_intro {A : Type} (env : Env) (p : Prog A) (w : World)
    (c : list Sequencer.MotionSegment) (j : nat) :
  calls (trace (run (quiet env) p w)) = Sequencer.command <$> c →
  (S j ≤ length c)%nat →
  raises_at env w j →
  aborted_at (run env p w) c (S j).
Proof.
  intros Hcalls Hlen Hat.
  destruct (run_fail_fast env p w j Hat) as (Ho & Hc & _ & Hlast).
  { rewrite Hcalls, length_fmap. lia. }
  rewrite Hcalls in Hc. unfold aborted_at.
  split; [done|]. split; [|split; [|done]].
  - by rewrite Hc, fmap_take.
  - rewrite Hc, length_take, length_fmap. lia.
Qed.

(** C3.  Fail-fast playback.  When a hardware call raises while a
    choreography of [n] segments is played and the failing call is that of
    segment [k], [1 <= k <= n], the run raises to its caller, exactly [k]
    calls have been attempted (the commands of segments [1..k], the last of
    them failing), and nothing happens after the failing call: no sleep and
    no command of segments [k+1..n].  This holds of the generic player on
    every choreography and of the dance method reached through
    [executeKeyboardJob], which has no handler for the exception. *)
Theorem choreography_fail_fast
    (env : Env) (w : World) (c : list Sequencer.MotionSegment) (k : nat)
    (Hk : (1 ≤ k ≤ length c)%nat) (Hfault : first_fault env w k) :
  aborted_at (run env (Sequencer.play c) w) c k ∧
  (c = dance_choreography →
   aborted_at (run env (executeKeyboardJob init "5") w) dance_choreography k).
Proof.
  destruct Hfault as (j & -> & Hat). split.
  - apply aborted_at_intro; [|lia|done].
    rewrite sequencer_play_run. cbn [trace]. apply calls_segment_events.
  - intros ->. rewrite dispatch_dance.
    apply aborted_at_intro; [|lia|done].
    rewrite dance_quiet_run. cbn [trace]. apply calls_segment_events.
Qed.

Lemma choreography_fail_fast_witness :
  (1 ≤ 2 ≤ length dance_choreography)%nat ∧
  first_fault second_call_raises startup 2 ∧
  aborted_at (run second_call_raises (Sequencer.play dance_choreography) startup)
             dance_choreography 2 ∧
  (dance_choreography = dance_choreography →
   aborted_at (run second_call_raises (executeKeyboardJob init "5") startup)
              dance_choreography 2).
Proof.
  assert (H1 : (1 ≤ 2 ≤ length dance_choreography)%nat).
  { vm_compute. split; repeat constructor. }
  assert (H2 : first_fault second_call_raises startup 2).
  { exists 1%nat. split; [reflexivity|]. split; [|reflexivity].
    intros i Hi. assert (i = 0%nat) as -> by lia. reflexivity. }
  split; [exact H1|]. split; [exact H2|].
  exact (choreography_fail_fast second_call_raises startup dance_choreography 2 H1 H2).
Defined.

(** C5.  Playback in the authored order.  On hardware that does not fail
    the player issues, for each segment in order, the segment's command and
    then, if the segment has a duration, one sleep of exactly that
    duration; the total time blocked is the sum of the present durations.
    The example choreography of three segments makes exactly three calls in
    the authored order and blocks for 2 seconds.  The dance method is the
    playback of [authored_dance], the 185 segments of its source in their
    order: pressing its key issues the 185 commands in exactly that order,
    each followed by the sleep of its segment and by nothing else, and
    blocks for 60 seconds in all. *)
Theorem choreography_played_in_order
    (env : Env) (w : World) (c : list Sequencer.MotionSegment)
    (Hnever : never_raises env) :
  (let r := run env (Sequencer.play c) w in
   outcome r = Returned tt ∧
   trace r = flat_map Sequencer.segment_events c ∧
   calls (trace r) = Sequencer.command <$> c ∧
   length (calls (trace r)) = length c ∧
   blocked (trace r) = Sequencer.nominal_duration c) ∧
  (let r := run env (Sequencer.play example_choreography) w in
   trace r = [EvCall (gopigo3.steer 100 100); EvSleep 1;
              EvCall gopigo3.stop; EvSleep 1;
              EvCall (gopigo3.set_speed 300)] ∧
   calls (trace r) = [gopigo3.steer 100 100; gopigo3.stop; gopigo3.set_speed 300] ∧
   (blocked (trace r) == 2)%Q) ∧
  _gopigo3_command_activatedance =
    (Sequencer.play authored_dance;; mret "static") ∧
  (let r := run env (executeKeyboardJob init "5") w in
   outcome r = Returned "static" ∧
   trace r = flat_map Sequencer.segment_events authored_dance ∧
   calls (trace r) = Sequencer.command <$> authored_dance ∧
   sleeps (trace r) = omap Sequencer.duration authored_dance ∧
   length (calls (trace r)) = 185%nat ∧
   (blocked (trace r) == 60)%Q).
Proof.
  cbv zeta.
  rewrite (run_quiet env (Sequencer.play c)) by done.
  rewrite (run_quiet env (Sequencer.play example_choreography)) by done.
  rewrite !sequencer_play_run.
  rewrite dispatch_dance.
  rewrite (run_quiet env _gopigo3_command_activatedance) by done.
  rewrite dance_quiet_run.
  cbn [outcome trace].
  rewrite <- dance_authored.
  split; [|split; [|split]].
  - repeat split.
    + apply calls_segment_events.
    + by rewrite calls_segment_events, length_fmap.
    + unfold blocked. by rewrite sleeps_segment_events.
  - repeat split.
  - exact dance_is_playback.
  - split; [reflexivity|]. split; [reflexivity|].
    split; [apply calls_segment_events|].
    split; [apply sleeps_segment_events|].
    split; vm_compute; reflexivity.
Qed.

Lemma healthy_never_raises : never_raises healthy.
Proof. intros n. reflexivity. Defined.

Lemma choreography_played_in_order_witness :
  never_raises healthy ∧
  (let r := run healthy (Sequencer.play example_choreography) startup in
   outcome r = Returned tt ∧
   calls (trace r) =
     [gopigo3.steer 100 100; gopigo3.stop; gopigo3.set_speed 300] ∧
   length (calls (trace r)) = 3%nat ∧
   blocked (trace r) = (1 + (1 + 0))%Q) ∧
  (let r := run healthy (executeKeyboardJob init "5") startup in
   outcome r = Returned "static" ∧
   take 6 (trace r) =
     [EvCall (gopigo3.set_speed 300); EvCall gopigo3.close_eyes;
      EvCall (gopigo3.steer 100 100); EvSleep (60/128 * 2);
      EvCall gopigo3.stop; EvSleep (60/128 * 2)] ∧
   length (calls (trace r)) = 185%nat).
Proof.
  split; [exact healthy_never_raises|].
  destruct (choreography_played_in_order healthy startup example_choreography
              healthy_never_raises)
    as [(Ho & _ & Hc & Hl & Hb) (_ & _ & Hdo & Hdt & _ & _ & Hdl & _)].
  cbv zeta. split.
  - split; [exact Ho|]. split; [exact Hc|]. split; [exact Hl|exact Hb].
  - split; [exact Hdo|]. split; [exact (f_equal (take 6) Hdt)|exact Hdl].
Defined.

(** C4.  Legs in the authored order.  On hardware that does not fail the
    leg player issues, for each leg in order, a [set_speed] with the leg's
    speed override when it has one, immediately followed by the leg's drive
    or turn call with its signed value, and nothing else.  The example
    route makes exactly the three calls [drive_inches 49],
    [turn_degrees 84], [drive_inches 76].  The delivery method is
    [set_speed 300], [init_servo], the playback of [delivery_route] (whose
    first three legs are the example route), and [stop]. *)
Theorem route_legs_in_order
    (env : Env) (w : World) (route : list Route.WaypointLeg)
    (Hnever : never_raises env) :
  (let r := run env (Route.play route) w in
   outcome r = Returned tt ∧
   trace r = EvCall <$> flat_map Route.leg_calls route ∧
   calls (trace r) = flat_map Route.leg_calls route) ∧
  (∀ units o,
     Route.leg_calls (Route.mkLeg (Some units) o) =
       [gopigo3.set_speed units; Route.op_call o]) ∧
  (∀ o, Route.leg_calls (Route.mkLeg None o) = [Route.op_call o]) ∧
  (let r := run env (Route.play example_route) w in
   trace r = [EvCall (gopigo3.drive_inches 49);
              EvCall (gopigo3.turn_degrees 84);
              EvCall (gopigo3.drive_inches 76)]) ∧
  _gopigo3_command_deliveraltoids =
    (call (gopigo3.set_speed 300);;
     call gopigo3.init_servo;;
     Route.play delivery_route;;
     call gopigo3.stop;;
     mret "static") ∧
  take 3 delivery_route = example_route ∧
  (let r := run env (executeKeyboardJob init "7") w in
   outcome r = Returned "static" ∧
   trace r = EvCall <$>
     [gopigo3.set_speed 300; gopigo3.init_servo;
      gopigo3.drive_inches 49; gopigo3.turn_degrees 84;
      gopigo3.drive_inches 76; gopigo3.turn_degrees 82;
      gopigo3.drive_inches 40; gopigo3.turn_degrees 168;
      gopigo3.drive_inches (-36);
      gopigo3.set_speed 100; gopigo3.drive_inches (-48);
      gopigo3.set_speed 300; gopigo3.turn_degrees (-82);
      gopigo3.drive_inches 80; gopigo3.turn_degrees (-84);
      gopigo3.stop]).
Proof.
  cbv zeta.
  rewrite (run_quiet env (Route.play route)) by done.
  rewrite (run_quiet env (Route.play example_route)) by done.
  rewrite !route_play_run.
  rewrite dispatch_delivery.
  rewrite (run_quiet env _gopigo3_command_deliveraltoids) by done.
  rewrite delivery_quiet_run.
  cbn [outcome trace].
  split; [|split; [|split; [|split; [|split; [|split]]]]].
  - split; [reflexivity|]. split; [reflexivity|]. apply calls_EvCall.
  - reflexivity.
  - reflexivity.
  - reflexivity.
  - exact delivery_is_playback.
  - reflexivity.
  - split; reflexivity.
Qed.

Lemma route_legs_in_order_witness :
  never_raises healthy ∧
  (let r := run healthy (Route.play example_route) startup in
   outcome r = Returned tt ∧
   calls (trace r) = flat_map Route.leg_calls example_route).
Proof.
  split; [exact healthy_never_raises|].
  destruct (route_legs_in_order healthy startup example_route
              healthy_never_raises) as [(Ho & _ & Hc) _].
  cbv zeta. split; [exact Ho|exact Hc].
Defined.

(** C10.  Both scripted routines end at rest.  Whenever the dance or the
    delivery returns, it returns ["static"] and the last motion call it
    made is [stop]; on hardware that does not fail it does return. *)
Theorem scripted_routines_end_stopped
    (env : Env) (w : World) (key : string) (Hkey : key = "5" ∨ key = "7") :
  let r := run env (executeKeyboardJob init key) w in
  (never_raises env → outcome r = Returned "static") ∧
  (∀ v, outcome r = Returned v →
        v = "static" ∧ last_motion (trace r) = Some gopigo3.stop).
Proof.
  cbv zeta. split.
  - intros Hnever. rewrite run_quiet by done.
    destruct Hkey as [-> | ->].
    + by rewrite dispatch_dance, dance_quiet_run.
    + by rewrite dispatch_delivery, delivery_quiet_run.
  - intros v Hret. rewrite (run_returned_quiet _ _ _ _ Hret) in Hret |- *.
    destruct Hkey as [-> | ->].
    + rewrite dispatch_dance, dance_quiet_run in Hret |- *.
      cbn [outcome trace] in Hret |- *. split; [congruence|].
      vm_compute. reflexivity.
    + rewrite dispatch_delivery, delivery_quiet_run in Hret |- *.
      cbn [outcome trace] in Hret |- *. split; [congruence|].
      vm_compute. reflexivity.
Qed.

Lemma scripted_routines_end_stopped_witness :
  ("5" = "5" ∨ "5" = "7") ∧
  (let r := run healthy (executeKeyboardJob init "5") startup in
   (never_raises healthy → outcome r = Returned "static") ∧
   (∀ v, outcome r = Returned v →
         v = "static" ∧ last_motion (trace r) = Some gopigo3.stop)).
Proof.
  split; [left; reflexivity|].
  exact (scripted_routines_end_stopped healthy startup "5" (or_introl eq_refl)).
Defined.

(** ** Toggles *)

Lemma individual_toggle_dispatch :
  executeKeyboardJob init "1" = individual_toggle LeftBlinkerOn ∧
  executeKeyboardJob init "2" = individual_toggle RightBlinkerOn ∧
  executeKeyboardJob init "8" = individual_toggle LeftEyeOn ∧
  executeKeyboardJob init "9" = individual_toggle RightEyeOn.
Proof. repeat split; vm_compute; reflexivity. Qed.

Ltac by_cases_on_flags w :=
  destruct w as [[[] [] [] []] ? ?]; vm_compute; repeat split; try discriminate.

(** C2.  Combined toggles.  On hardware that does not fail, the handler of
    both blinkers (both eyes) switches both outputs on and sets both flags
    when both flags are false; in every other case, both true or exactly
    one true, it switches both outputs off and clears both flags.  The
    other two flags are left alone and ["static"] is returned. *)
Theorem combined_toggles (env : Env) (w : World) (Hnever : never_raises env) :
  (let r := run env _gopigo3_command_blinkers w in
   outcome r = Returned "static" ∧
   left_eye_on (flags (final r)) = left_eye_on (flags w) ∧
   right_eye_on (flags (final r)) = right_eye_on (flags w) ∧
   if negb (left_blinker_on (flags w)) && negb (right_blinker_on (flags w))
   then trace r = [EvCall (gopigo3.led_on 0); EvCall (gopigo3.led_on 1)] ∧
        left_blinker_on (flags (final r)) = true ∧
        right_blinker_on (flags (final r)) = true
   else trace r = [EvCall (gopigo3.led_off 0); EvCall (gopigo3.led_off 1)] ∧
        left_blinker_on (flags (final r)) = false ∧
        right_blinker_on (flags (final r)) = false) ∧
  (let r := run env _gopigo3_command_eyes w in
   outcome r = Returned "static" ∧
   left_blinker_on (flags (final r)) = left_blinker_on (flags w) ∧
   right_blinker_on (flags (final r)) = right_blinker_on (flags w) ∧
   if negb (left_eye_on (flags w)) && negb (right_eye_on (flags w))
   then trace r = [EvCall gopigo3.open_eyes] ∧
        left_eye_on (flags (final r)) = true ∧
        right_eye_on (flags (final r)) = true
   else trace r = [EvCall gopigo3.close_eyes] ∧
        left_eye_on (flags (final r)) = false ∧
        right_eye_on (flags (final r)) = false).
Proof.
  cbv zeta. rewrite !(run_quiet env) by done.
  by_cases_on_flags w.
Qed.

Lemma combined_toggles_witness :
  never_raises healthy ∧
  (let r := run healthy _gopigo3_command_blinkers
                (mkWorld (mkFlags true false false false) 0 0) in
   outcome r = Returned "static" ∧
   trace r = [EvCall (gopigo3.led_off 0); EvCall (gopigo3.led_off 1)] ∧
   left_blinker_on (flags (final r)) = false ∧
   right_blinker_on (flags (final r)) = false).
Proof.
  split; [exact healthy_never_raises|].
  destruct (combined_toggles healthy (mkWorld (mkFlags true false false false) 0 0)
              healthy_never_raises) as [(Ho & _ & _ & Hmixed) _].
  cbv zeta. split; [exact Ho|exact Hmixed].
Defined.

(** C7.  Individual toggles alternate.  On hardware that does not fail,
    one invocation of the handler of a flag switches the output to the
    opposite of the flag and negates that flag, leaving the other three;
    a second invocation in succession restores all four flags.  So one
    invocation and two invocations never leave the same state: the handler
    is not idempotent. *)
Theorem individual_toggles_alternate
    (env : Env) (w : World) (f : Attr) (Hnever : never_raises env) :
  let r1 := run env (individual_toggle f) w in
  let r2 := run env (individual_toggle f) (final r1) in
  outcome r1 = Returned "static" ∧
  outcome r2 = Returned "static" ∧
  trace r1 = [EvCall (toggle_call f (negb (get_attr f (flags w))))] ∧
  trace r2 = [EvCall (toggle_call f (get_attr f (flags w)))] ∧
  flags (final r1) = set_attr f (negb (get_attr f (flags w))) (flags w) ∧
  get_attr f (flags (final r1)) = negb (get_attr f (flags w)) ∧
  flags (final r2) = flags w ∧
  flags (final r2) ≠ flags (final r1).
Proof.
  cbv zeta. rewrite !(run_quiet env) by done.
  destruct f; by_cases_on_flags w.
Qed.

Lemma individual_toggles_alternate_witness :
  never_raises healthy ∧
  (let r1 := run healthy (individual_toggle LeftEyeOn) startup in
   let r2 := run healthy (individual_toggle LeftEyeOn) (final r1) in
   left_eye_on (flags (final r1)) = true ∧
   flags (final r2) = flags startup).
Proof.
  split; [exact healthy_never_raises|].
  destruct (individual_toggles_alternate healthy startup LeftEyeOn
              healthy_never_raises) as (_ & _ & _ & _ & _ & H1 & H2 & _).
  cbv zeta. split; [exact H1|exact H2].
Defined.

(** ** The random eye colour *)

Lemma randint_value_range (a b raw : Z) :
  (a ≤ b)%Z → (a ≤ randint_value a b raw ≤ b)%Z.
Proof.
  intros Hab. unfold randint_value.
  pose proof (Z.mod_pos_bound raw (b - a + 1)) as Hmod. lia.
Qed.

(** Every value of the range is the value of some raw draw. *)
Lemma randint_value_onto (a b v : Z) :
  (a ≤ v ≤ b)%Z → randint_value a b (v - a) = v.
Proof.
  intros Hv. unfold randint_value. rewrite Z.mod_small by lia. lia.
Qed.

(** C6.  The random eye colour leaves the flags alone.  Whatever the four
    flags and whatever the hardware does, the flags after the call are the
    flags before it.  On hardware that does not fail the handler takes
    three separate draws in [0, 255], issues [set_eye_color] with them,
    then [open_left_eye] exactly when the left flag is true and
    [open_right_eye] exactly when the right flag is true, and returns
    ["static"]; every colour of the range can be drawn. *)
Theorem eyescolor_keeps_flags (env : Env) (w : World) :
  let r := run env _gopigo3_command_eyescolor w in
  flags (final r) = flags w ∧
  (never_raises env →
   outcome r = Returned "static" ∧
   draws_made (final r) = (draws_made w + 3)%nat ∧
   in_byte_range (drawn_colour env w) ∧
   trace r =
     EvCall (gopigo3.set_eye_color (drawn_colour env w)) ::
     (if left_eye_on (flags w) then [EvCall gopigo3.open_left_eye] else []) ++
     (if right_eye_on (flags w) then [EvCall gopigo3.open_right_eye] else [])) ∧
  (∀ colour, in_byte_range colour →
     ∃ env', never_raises env' ∧ drawn_colour env' w = colour).
Proof.
  cbv zeta. split; [|split].
  - destruct w as [[lb rb le re] n m]. cbn.
    destruct (raises env n); [reflexivity|].
    destruct le, re; cbn;
      repeat (match goal with |- context [raises env ?i] =>
                destruct (raises env i) end; cbn);
      reflexivity.
  - intros Hnever. rewrite run_quiet by done.
    split; [|split; [|split]].
    + by destruct w as [[lb rb [] []] n m].
    + destruct w as [[lb rb [] []] n m]; cbn; lia.
    + unfold in_byte_range, drawn_colour. cbn [fst snd].
      repeat split; apply randint_value_range; lia.
    + by destruct w as [[lb rb [] []] n m].
  - intros [[red green] blue] (Hr & Hg & Hb). cbn [fst snd] in Hr, Hg, Hb.
    exists (mkEnv (λ _, false)
                  (λ i, match (i - draws_made w)%nat with
                        | 0%nat => red
                        | 1%nat => green
                        | _ => blue
                        end)).
    split; [done|]. unfold drawn_colour. cbn [entropy].
    replace (draws_made w - draws_made w)%nat with 0%nat by lia.
    replace (S (draws_made w) - draws_made w)%nat with 1%nat by lia.
    replace (S (S (draws_made w)) - draws_made w)%nat with 2%nat by lia.
    pose proof (randint_value_onto 0 255 red) as H1.
    pose proof (randint_value_onto 0 255 green) as H2.
    pose proof (randint_value_onto 0 255 blue) as H3.
    rewrite Z.sub_0_r in H1, H2, H3.
    by rewrite H1, H2, H3.
Qed.

Lemma eyescolor_keeps_flags_witness :
  never_raises healthy ∧
  (let w := mkWorld (mkFlags false false true false) 0 0 in
   let r := run healthy _gopigo3_command_eyescolor w in
   flags (final r) = flags w ∧
   outcome r = Returned "static" ∧
   trace r = [EvCall (gopigo3.set_eye_color (0, 0, 0)%Z);
              EvCall gopigo3.open_left_eye]).
Proof.
  split; [exact healthy_never_raises|].
  destruct (eyescolor_keeps_flags healthy (mkWorld (mkFlags false false true false) 0 0))
    as (Hflags & Hrun & _).
  destruct (Hrun healthy_never_raises) as (Ho & _ & _ & Ht).
  cbv zeta. split; [exact Hflags|]. split; [exact Ho|exact Ht].
Defined.

(** ** Dispatch *)

(** C1.  Unknown commands are no-ops.  For every registry: a key that is
    not bound, and likewise a bound key whose method suffix names no
    command method, makes [executeKeyboardJob] return ["nothing"]; nothing
    is raised whatever the hardware does, no call is made and the world is
    unchanged. *)
Theorem unknown_key_is_noop
    (self : Self) (key : string) (env : Env) (w : World)
    (Hunknown :
       keybindings self !! key = None ∨
       ∃ description suffix,
         keybindings self !! key = Some (description, suffix) ∧
         assoc ("_gopigo3_command_" +:+ suffix) command_methods = None) :
  executeKeyboardJob self key = mret "nothing" ∧
  run env (executeKeyboardJob self key) w = mkResult (Returned "nothing") w [].
Proof.
  assert (Hprog : executeKeyboardJob self key = mret "nothing").
  { unfold executeKeyboardJob, getattr.
    destruct Hunknown as [-> | (description & suffix & -> & Hnone)].
    - reflexivity.
    - unfold KEY_FUNC_SUFFIX. cbn [snd]. by rewrite Hnone. }
  split; [exact Hprog|]. by rewrite Hprog.
Qed.

Lemma unknown_key_is_noop_witness :
  (keybindings dangling !! "x" = None ∨
   ∃ description suffix,
     keybindings dangling !! "x" = Some (description, suffix) ∧
     assoc ("_gopigo3_command_" +:+ suffix) command_methods = None) ∧
  run second_call_raises (executeKeyboardJob dangling "x") startup =
    mkResult (Returned "nothing") startup [] ∧
  run second_call_raises (executeKeyboardJob init "q") startup =
    mkResult (Returned "nothing") startup [].
Proof.
  assert (H : keybindings dangling !! "x" = None ∨
              ∃ description suffix,
                keybindings dangling !! "x" = Some (description, suffix) ∧
                assoc ("_gopigo3_command_" +:+ suffix) command_methods = None).
  { right. exists "Fly", "fly". split; reflexivity. }
  split; [exact H|]. split.
  - exact (proj2 (unknown_key_is_noop dangling "x" second_call_raises startup H)).
  - exact (proj2 (unknown_key_is_noop init "q" second_call_raises startup
                    (or_introl eq_refl))).
Defined.

Lemma registered_keys (key : string) :
  is_Some (the_keybindings !! key) ↔ key ∈ the_order_of_keys.
Proof.
  split.
  - unfold the_keybindings, dict_literal. cbn [foldl fst snd].
    rewrite !lookup_insert_is_Some, lookup_empty, is_Some_alt.
    unfold the_order_of_keys. rewrite !elem_of_cons, elem_of_nil.
    intros H.
    repeat (destruct H as [<- | [_ H]]; [repeat (first [by left | right])|]).
    done.
  - unfold the_order_of_keys. rewrite !elem_of_cons, elem_of_nil.
    intros H.
    repeat (destruct H as [-> | H]; [rewrite is_Some_alt; by vm_compute|]).
    done.
Qed.

Ltac classify :=
  match goal with
  | |- ∃ cls, outcome ?r = Returned cls ∧ _ =>
      let o := eval vm_compute in (outcome r) in
      match o with
      | Returned ?c =>
          exists c; split;
          [vm_compute; reflexivity
          |split; [unfold is_classification; tauto | discriminate]]
      end
  end.

Lemma registered_key_outcome (env : Env) (w : World) (key : string) :
  key ∈ the_order_of_keys →
  ∃ cls, outcome (run (quiet env) (executeKeyboardJob init key) w) = Returned cls ∧
         is_classification cls ∧ cls ≠ "nothing".
Proof.
  unfold the_order_of_keys. rewrite !elem_of_cons, elem_of_nil.
  intros H. destruct w as [[[] [] [] []] n m];
    repeat (destruct H as [-> | H]; [classify|]); done.
Qed.

Lemma registered_key_method (key : string) :
  key ∈ the_order_of_keys →
  ∃ description suffix method,
    the_keybindings !! key = Some (description, suffix) ∧
    assoc ("_gopigo3_command_" +:+ suffix) command_methods = Some method ∧
    executeKeyboardJob init key = method.
Proof.
  unfold the_order_of_keys. rewrite !elem_of_cons, elem_of_nil.
  intros H.
  repeat (destruct H as [-> | H];
          [match goal with
           | |- ∃ d s m, the_keybindings !! ?k = _ ∧ _ =>
               let b := eval vm_compute in (the_keybindings !! k) in
               match b with
               | Some (?d, ?s) =>
                   exists d, s; eexists; split; [vm_compute; reflexivity|];
                   split; [vm_compute; reflexivity|vm_compute; reflexivity]
               end
           end|]).
  done.
Qed.

(** C8.  Every registered key dispatches.  The registry binds exactly the
    18 keys of the menu order; for each of them the method suffix names a
    command method, which [executeKeyboardJob] runs, and on hardware that
    does not fail the result is one of ["moving"], ["path"], ["static"],
    ["exit"], never ["nothing"]. *)
Theorem registered_keys_dispatch
    (env : Env) (w : World) (key : string)
    (Hnever : never_raises env) (Hkey : is_Some (the_keybindings !! key)) :
  size the_keybindings = 18%nat ∧
  key ∈ the_order_of_keys ∧
  (∃ description suffix method,
     the_keybindings !! key = Some (description, suffix) ∧
     assoc ("_gopigo3_command_" +:+ suffix) command_methods = Some method ∧
     executeKeyboardJob init key = method) ∧
  ∃ cls, outcome (run env (executeKeyboardJob init key) w) = Returned cls ∧
         is_classification cls ∧ cls ≠ "nothing".
Proof.
  apply registered_keys in Hkey.
  split; [by vm_compute|]. split; [exact Hkey|].
  split; [by apply registered_key_method|].
  rewrite run_quiet by done. by apply registered_key_outcome.
Qed.

Lemma registered_keys_dispatch_witness :
  never_raises healthy ∧
  is_Some (the_keybindings !! "<SPACE>") ∧
  ∃ cls, outcome (run healthy (executeKeyboardJob init "<SPACE>") startup) = Returned cls ∧
         is_classification cls ∧ cls ≠ "nothing".
Proof.
  assert (H : is_Some (the_keybindings !! "<SPACE>")).
  { rewrite is_Some_alt. by vm_compute. }
  split; [exact healthy_never_raises|]. split; [exact H|].
  exact (proj2 (proj2 (proj2
    (registered_keys_dispatch healthy startup "<SPACE>" healthy_never_raises H)))).
Defined.

(** ** The menu and the display order *)






(** * Further properties of the class *)

(** ** What a program without some kind of effect cannot do *)

Lemma free_of_FlagWrite_flags {A : Type} (env : Env) (p : Prog A) (w : World) :
  free_of FlagWrite p → flags (final (run env p w)) = flags w.
Proof.
  revert w.
  induction p as [a|c k IH|d k IH|a b k IH|f k IH|f v k IH|s k IH];
    intros w; simpl.
  - done.
  - intros [_ Hk]. destruct (raises env (calls_made w)); [done|].
    simpl. by rewrite IH.
  - intros [_ Hk]. by rewrite IH.
  - intros [_ Hk]. by rewrite IH.
  - intros [_ Hk]. by rewrite IH.
  - intros [Hne _]. done.
  - intros [_ Hk]. by rewrite IH.
Qed.

Lemma free_of_Sleeping_sleeps {A : Type} (env : Env) (p : Prog A) (w : World) :
  free_of Sleeping p → sleeps (trace (run env p w)) = [].
Proof.
  revert w.
  induction p as [a|c k IH|d k IH|a b k IH|f k IH|f v k IH|s k IH];
    intros w; simpl.
  - done.
  - intros [_ Hk]. destruct (raises env (calls_made w)); [done|].
    exact (IH _ Hk).
  - intros [Hne _]. done.
  - intros [_ Hk]. by apply IH.
  - intros [_ Hk]. by apply IH.
  - intros [_ Hk]. by apply IH.
  - intros [_ Hk]. exact (IH _ Hk).
Qed.

Lemma free_of_Printing_printed {A : Type} (env : Env) (p : Prog A) (w : World) :
  free_of Printing p → printed (trace (run env p w)) = [].
Proof.
  revert w.
  induction p as [a|c k IH|d k IH|a b k IH|f k IH|f v k IH|s k IH];
    intros w; simpl.
  - done.
  - intros [_ Hk]. destruct (raises env (calls_made w)); [done|].
    exact (IH _ Hk).
  - intros [_ Hk]. exact (IH _ Hk).
  - intros [_ Hk]. by apply IH.
  - intros [_ Hk]. by apply IH.
  - intros [_ Hk]. by apply IH.
  - intros [Hne _]. done.
Qed.

(** A program that makes no hardware call and writes no flag returns
    whatever the hardware does and leaves the flags and the call count as
    they were. *)
Lemma free_of_HardwareCall_returns {A : Type} (env : Env) (p : Prog A) (w : World) :
  free_of HardwareCall p →
  (∃ v, outcome (run env p w) = Returned v) ∧
  calls (trace (run env p w)) = [] ∧
  calls_made (final (run env p w)) = calls_made w.
Proof.
  revert w.
  induction p as [a|c k IH|d k IH|a b k IH|f k IH|f v k IH|s k IH];
    intros w; simpl.
  - intros _. split; [by eexists|done].
  - intros [Hne _]. done.
  - intros [_ Hk]. exact (IH _ Hk).
  - intros [_ Hk].
    exact (IH _ (mkWorld (flags w) (calls_made w) (S (draws_made w))) (Hk _)).
  - intros [_ Hk]. exact (IH _ w (Hk _)).
  - intros [_ Hk].
    exact (IH (mkWorld (set_attr f v (flags w)) (calls_made w) (draws_made w)) Hk).
  - intros [_ Hk]. exact (IH _ Hk).
Qed.

(** A run is decided by the faults it can meet: when none of the calls of
    the fault-free run raises, the run is the fault-free run, whatever the
    hardware would do later. *)
Lemma run_unaffected_by_later_faults {A : Type} (env : Env) (p : Prog A) (w : World) :
  (∀ i, (i < length (calls (trace (run (quiet env) p w))))%nat →
        raises env (calls_made w + i) = false) →
  run env p w = run (quiet env) p w.
Proof.
  revert w.
  induction p as [a|c k IH|d k IH|a b k IH|f k IH|f v k IH|s k IH];
    intros w; simpl; intros Hsafe.
  - done.
  - assert (Hr : raises env (calls_made w) = false).
    { rewrite <- (Nat.add_0_r (calls_made w)). apply Hsafe. lia. }
    rewrite Hr. f_equal. apply IH. intros i Hi. simpl.
    rewrite <- Nat.add_succ_r. apply Hsafe. lia.
  - f_equal. by apply IH.
  - by apply IH.
  - by apply IH.
  - by apply IH.
  - f_equal. by apply IH.
Qed.

(** ** Keys that make one call *)

(** X1.  The five motion keys and the three path keys make exactly one
    hardware call each, with a fixed argument, and nothing else: no sleep,
    no print, no flag written.  The classification is returned exactly
    when that call does not raise; the key of [stop] is classified
    ["moving"] like the other four. *)
Theorem single_call_keys
    (key : string) (c : gopigo3.Call) (cls : string) (env : Env) (w : World)
    (Hkey : single_call key = Some (c, cls)) :
  let r := run env (executeKeyboardJob init key) w in
  trace r = [EvCall c] ∧
  final r = mkWorld (flags w) (S (calls_made w)) (draws_made w) ∧
  outcome r = (if raises env (calls_made w)
               then Raised ActuatorError else Returned cls) ∧
  (cls = "moving" ∨ cls = "path").
Proof.
  cbv zeta. revert Hkey. unfold single_call.
  repeat (match goal with
          | |- context [String.eqb key ?k] =>
              destruct (String.eqb_spec key k) as [-> | _]
          end;
          [intros Hkey; injection Hkey as <- <-;
           match goal with
           | |- context [executeKeyboardJob init ?k] =>
               let m := eval vm_compute in (executeKeyboardJob init k) in
               replace (executeKeyboardJob init k) with m
                 by (vm_compute; reflexivity)
           end;
           cbn; destruct (raises env (calls_made w)); cbn;
           repeat split; auto|]).
  discriminate.
Qed.

Lemma single_call_keys_witness :
  single_call "<SPACE>" = Some (gopigo3.stop, "moving") ∧
  (let r := run second_call_raises (executeKeyboardJob init "<SPACE>") startup in
   trace r = [EvCall gopigo3.stop] ∧
   outcome r = Returned "moving").
Proof.
  split; [reflexivity|].
  destruct (single_call_keys "<SPACE>" gopigo3.stop "moving" second_call_raises
              startup eq_refl) as (Ht & _ & Ho & _).
  cbv zeta. split; [exact Ht|exact Ho].
Defined.

(** ** Dispatch, for every registry *)

Lemma eqb_append_prefix (prefix s t : string) :
  String.eqb (prefix +:+ s) (prefix +:+ t) = String.eqb s t.
Proof.
  induction prefix as [|a prefix IH]; simpl; [done|].
  by rewrite Ascii.eqb_refl.
Qed.

Lemma assoc_map_prefix {V : Type} (prefix name : string) (l : list (string * V)) :
  assoc (prefix +:+ name) ((λ nv, (prefix +:+ nv.1, nv.2)) <$> l) = assoc name l.
Proof.
  induction l as [|[n v] l IH]; [done|].
  cbn. rewrite eqb_append_prefix. by destruct (String.eqb name n).
Qed.

Lemma assoc_prefixed (suffix : string) :
  assoc ("_gopigo3_command_" +:+ suffix) command_methods =
  assoc suffix methods_by_suffix.
Proof.
  rewrite <- (assoc_map_prefix "_gopigo3_command_" suffix methods_by_suffix).
  reflexivity.
Qed.

Lemma assoc_elem_of {V : Type} (name : string) (l : list (string * V)) (v : V) :
  assoc name l = Some v → (name, v) ∈ l.
Proof.
  induction l as [|[n x] l IH]; simpl; [done|].
  destruct (String.eqb_spec name n) as [-> | _].
  - intros [= ->]. apply elem_of_cons. by left.
  - intros H. apply elem_of_cons. right. by apply IH.
Qed.

(** Whatever the registry, dispatch runs a command method, the one the
    suffix of the key names, or returns ["nothing"]. *)
Lemma dispatch_method (self : Self) (key : string) :
  executeKeyboardJob self key = mret "nothing" ∨
  ∃ method, (suffix_of self key, method) ∈ methods_by_suffix ∧
            executeKeyboardJob self key = method.
Proof.
  unfold executeKeyboardJob, getattr. fold (suffix_of self key).
  rewrite assoc_prefixed.
  destruct (assoc (suffix_of self key) methods_by_suffix) as [method|] eqn:H.
  - right. exists method. split; [by apply assoc_elem_of|done].
  - by left.
Qed.

(** ** The effects of the command methods *)

Ltac solve_free_of :=
  repeat match goal with
         | |- True => exact I
         | |- _ ∧ _ => split
         | |- _ ≠ _ => discriminate
         | |- ∀ _ : bool, _ => intros []
         | |- ∀ _ : Z, _ => intro
         | |- free_of _ _ => progress hnf
         | |- returns_only _ _ => progress hnf
         | |- calls_first _ => progress hnf
         end.

Ltac each_method tac :=
  unfold methods_by_suffix;
  repeat (apply Forall_cons_2; [cbn [fst snd]; tac|]);
  apply Forall_nil_2.

Ltac one_of_the_list :=
  repeat (apply elem_of_cons; first [by left | right]).

Lemma methods_never_print :
  Forall (λ nm, free_of Printing nm.2) methods_by_suffix.
Proof. each_method solve_free_of. Qed.

Lemma methods_sleeping :
  Forall (λ nm, nm.1 = "activatedance" ∨ free_of Sleeping nm.2) methods_by_suffix.
Proof. each_method ltac:(first [by left | right; by solve_free_of]). Qed.

Lemma methods_flag_writes :
  Forall (λ nm, nm.1 ∈ toggle_suffixes ∨ free_of FlagWrite nm.2) methods_by_suffix.
Proof.
  each_method ltac:(first [right; by solve_free_of
                          | left; unfold toggle_suffixes; one_of_the_list]).
Qed.

Lemma methods_draws :
  Forall (λ nm, nm.1 = "eyescolor" ∨ free_of RandomDraw nm.2) methods_by_suffix.
Proof. each_method ltac:(first [by left | right; by solve_free_of]). Qed.

Lemma methods_return :
  Forall (λ nm, returns_only (λ cls, cls ≠ "nothing" ∧ (cls = "exit" → nm.1 = "exit")) nm.2)
         methods_by_suffix.
Proof. each_method ltac:(solve_free_of; try done). Qed.

Lemma free_of_RandomDraw_draws {A : Type} (env : Env) (p : Prog A) (w : World) :
  free_of RandomDraw p → draws_made (final (run env p w)) = draws_made w.
Proof.
  revert w.
  induction p as [a|c k IH|d k IH|a b k IH|f k IH|f v k IH|s k IH];
    intros w; simpl.
  - done.
  - intros [_ Hk]. destruct (raises env (calls_made w)); [done|].
    simpl. by rewrite IH.
  - intros [_ Hk]. by rewrite IH.
  - intros [Hne _]. done.
  - intros [_ Hk]. by rewrite IH.
  - intros [_ Hk]. by rewrite IH.
  - intros [_ Hk]. by rewrite IH.
Qed.

Lemma returns_only_outcome {A : Type} (P : A → Prop) (env : Env) (p : Prog A)
    (w : World) (v : A) :
  returns_only P p → outcome (run env p w) = Returned v → P v.
Proof.
  revert w.
  induction p as [a|c k IH|d k IH|a b k IH|f k IH|f x k IH|s k IH];
    intros w; simpl.
  - intros HP [= <-]. exact HP.
  - intros Hk. destruct (raises env (calls_made w)); [discriminate|].
    exact (IH _ Hk).
  - intros Hk. exact (IH _ Hk).
  - intros Hk. exact (IH _ _ (Hk _)).
  - intros Hk. exact (IH _ _ (Hk _)).
  - intros Hk. exact (IH _ Hk).
  - intros Hk. exact (IH _ Hk).
Qed.

(** The method dispatch runs and one fact about each method of the class
    give the fact about dispatch. *)
Lemma dispatch_cases (P : string → Prog string → Prop) (self : Self) (key : string) :
  Forall (λ nm, P nm.1 nm.2) methods_by_suffix →
  executeKeyboardJob self key = mret "nothing" ∨
  P (suffix_of self key) (executeKeyboardJob self key).
Proof.
  intros Hall. destruct (dispatch_method self key) as [Hn | (m & Hin & Heq)].
  - by left.
  - right. rewrite Heq. rewrite Forall_forall in Hall. exact (Hall _ Hin).
Qed.

(** X2.  Dispatch never prints: whatever the registry, the key, the state
    and the hardware, no command method writes a line to the terminal. *)
Theorem dispatch_never_prints
    (self : Self) (key : string) (env : Env) (w : World) :
  printed (trace (run env (executeKeyboardJob self key) w)) = [].
Proof.
  destruct (dispatch_cases (λ _ m, free_of Printing m) self key methods_never_print)
    as [-> | H]; [done|].
  by apply free_of_Printing_printed.
Qed.

(** X3.  Only the dance sleeps: for every registry, a key whose method is
    not [activatedance] returns or raises without any call of [sleep]. *)
Theorem only_the_dance_sleeps
    (self : Self) (key : string) (env : Env) (w : World)
    (Hkey : suffix_of self key ≠ "activatedance") :
  sleeps (trace (run env (executeKeyboardJob self key) w)) = [] ∧
  blocked (trace (run env (executeKeyboardJob self key) w)) = 0%Q.
Proof.
  assert (H : sleeps (trace (run env (executeKeyboardJob self key) w)) = []).
  { destruct (dispatch_cases (λ s m, s = "activatedance" ∨ free_of Sleeping m)
                self key methods_sleeping) as [-> | [H | H]]; [done|done|].
    by apply free_of_Sleeping_sleeps. }
  split; [exact H|]. unfold blocked. by rewrite H.
Qed.

Lemma only_the_dance_sleeps_witness :
  suffix_of init "7" ≠ "activatedance" ∧
  sleeps (trace (run healthy (executeKeyboardJob init "7") startup)) = [].
Proof.
  assert (H : suffix_of init "7" ≠ "activatedance") by (vm_compute; discriminate).
  split; [exact H|].
  exact (proj1 (only_the_dance_sleeps init "7" healthy startup H)).
Defined.

(** X4.  Only the six toggles write a flag: for every registry, a key
    whose method is none of them leaves the four flags as they were,
    whether the method returns or raises.  The dance and the eye colour
    are among these keys. *)
Theorem only_toggles_write_flags
    (self : Self) (key : string) (env : Env) (w : World)
    (Hkey : suffix_of self key ∉ toggle_suffixes) :
  flags (final (run env (executeKeyboardJob self key) w)) = flags w.
Proof.
  destruct (dispatch_cases (λ s m, s ∈ toggle_suffixes ∨ free_of FlagWrite m)
              self key methods_flag_writes) as [-> | [H | H]]; [done|done|].
  by apply free_of_FlagWrite_flags.
Qed.

Lemma only_toggles_write_flags_witness :
  (suffix_of init "5" ∉ toggle_suffixes) ∧
  flags (final (run second_call_raises (executeKeyboardJob init "5")
                    (mkWorld (mkFlags false false true true) 0 0))) =
  mkFlags false false true true.
Proof.
  assert (H : suffix_of init "5" ∉ toggle_suffixes).
  { intros Hin. apply (bool_decide_eq_true_2 _) in Hin.
    vm_compute in Hin. discriminate. }
  split; [exact H|].
  exact (only_toggles_write_flags init "5" second_call_raises
           (mkWorld (mkFlags false false true true) 0 0) H).
Defined.

(** X5.  Only the eye colour draws random numbers, and it draws three,
    before any hardware call: for every registry the number of draws made
    by a key is 3 when its method is [eyescolor], also when a call raises,
    and 0 otherwise. *)
Theorem only_eyescolor_draws
    (self : Self) (key : string) (env : Env) (w : World) :
  draws_made (final (run env (executeKeyboardJob self key) w)) =
  (draws_made w + (if String.eqb (suffix_of self key) "eyescolor" then 3 else 0))%nat.
Proof.
  destruct (String.eqb_spec (suffix_of self key) "eyescolor") as [Heq | Hne].
  - assert (Hm : executeKeyboardJob self key = _gopigo3_command_eyescolor).
    { unfold executeKeyboardJob, getattr. fold (suffix_of self key).
      rewrite Heq. reflexivity. }
    rewrite Hm. destruct w as [[lb rb le re] n m]. cbn.
    destruct (raises env n); [cbn; lia|].
    destruct le, re; cbn;
      repeat (match goal with |- context [raises env ?i] =>
                destruct (raises env i) end; cbn);
      lia.
  - rewrite Nat.add_0_r.
    destruct (dispatch_cases (λ s m, s = "eyescolor" ∨ free_of RandomDraw m)
                self key methods_draws) as [-> | [H | H]]; [done|done|].
    by apply free_of_RandomDraw_draws.
Qed.

(** X6.  What the caller can tell from the result.  For every registry:
    dispatch returns ["nothing"] exactly when the suffix of the key names
    no method, and ["exit"] exactly when it names [exit]; in both cases
    nothing was done: no call, no sleep, and the world is as before. *)
Theorem nothing_and_exit
    (self : Self) (key : string) (env : Env) (w : World) :
  let r := run env (executeKeyboardJob self key) w in
  (outcome r = Returned "nothing" ↔
   assoc (suffix_of self key) methods_by_suffix = None) ∧
  (outcome r = Returned "exit" ↔ suffix_of self key = "exit") ∧
  (outcome r = Returned "nothing" ∨ outcome r = Returned "exit" →
   trace r = [] ∧ final r = w).
Proof.
  cbv zeta.
  assert (Hexit : suffix_of self key = "exit" →
                  executeKeyboardJob self key = mret "exit").
  { intros Heq. unfold executeKeyboardJob, getattr. fold (suffix_of self key).
    rewrite Heq. reflexivity. }
  assert (Hnone : assoc (suffix_of self key) methods_by_suffix = None →
                  executeKeyboardJob self key = mret "nothing").
  { intros Heq. unfold executeKeyboardJob, getattr. fold (suffix_of self key).
    by rewrite assoc_prefixed, Heq. }
  assert (Hret : ∀ cls, outcome (run env (executeKeyboardJob self key) w) = Returned cls →
                 (cls = "nothing" → assoc (suffix_of self key) methods_by_suffix = None) ∧
                 (cls = "exit" → suffix_of self key = "exit")).
  { intros cls Ho.
    unfold executeKeyboardJob, getattr in Ho. fold (suffix_of self key) in Ho.
    rewrite assoc_prefixed in Ho.
    destruct (assoc (suffix_of self key) methods_by_suffix) as [m|] eqn:Hm.
    - apply assoc_elem_of in Hm.
      pose proof methods_return as Hall. rewrite Forall_forall in Hall.
      specialize (Hall _ Hm). cbn [fst snd] in Hall.
      destruct (returns_only_outcome _ env m w cls Hall Ho) as [Hn He].
      split; [done|exact He].
    - injection Ho as <-. split; [done|discriminate]. }
  split; [|split].
  - split; [intros Ho; by apply (Hret _ Ho)|].
    intros Hn. by rewrite (Hnone Hn).
  - split; [intros Ho; by apply (Hret _ Ho)|].
    intros He. by rewrite (Hexit He).
  - intros [Ho | Ho].
    + rewrite (Hnone (proj1 (Hret _ Ho) eq_refl)). done.
    + rewrite (Hexit (proj2 (Hret _ Ho) eq_refl)). done.
Qed.

Lemma nothing_and_exit_witness :
  let r := run second_call_raises (executeKeyboardJob init "<ESC>") startup in
  (outcome r = Returned "nothing" ∨ outcome r = Returned "exit") ∧
  trace r = [] ∧ final r = startup.
Proof.
  cbv zeta.
  assert (H : outcome (run second_call_raises (executeKeyboardJob init "<ESC>") startup)
              = Returned "nothing" ∨
              outcome (run second_call_raises (executeKeyboardJob init "<ESC>") startup)
              = Returned "exit") by (right; reflexivity).
  split; [exact H|].
  exact (proj2 (proj2 (nothing_and_exit init "<ESC>" second_call_raises startup)) H).
Defined.

(** ** Faults *)

Lemma run_quiet_returns {A : Type} (env : Env) (p : Prog A) (w : World) :
  ∃ v, outcome (run (quiet env) p w) = Returned v.
Proof.
  revert w.
  induction p as [a|c k IH|d k IH|a b k IH|f k IH|f x k IH|s k IH];
    intros w; simpl; eauto.
Qed.

(** Among the first [n] calls counted from [w], either none raises or one
    is the first to raise. *)
Lemma first_raise (env : Env) (w : World) (n : nat) :
  (∀ i, (i < n)%nat → raises env (calls_made w + i) = false) ∨
  ∃ j, (j < n)%nat ∧ raises_at env w j.
Proof.
  induction n as [|n [Hnone | (j & Hj & Hat)]].
  - left. intros i Hi. lia.
  - destruct (raises env (calls_made w + n)) eqn:E.
    + right. exists n. split; [lia|]. by split.
    + left. intros i Hi. destruct (decide (i = n)) as [-> | Hne]; [done|].
      apply Hnone. lia.
  - right. exists j. split; [lia|done].
Qed.

Lemma run_raises_iff {A : Type} (env : Env) (p : Prog A) (w : World) :
  outcome (run env p w) = Raised ActuatorError ↔
  ∃ i, (i < length (planned env p w))%nat ∧ raises env (calls_made w + i) = true.
Proof.
  unfold planned. split.
  - intros Ho.
    destruct (first_raise env w (length (calls (trace (run (quiet env) p w)))))
      as [Hnone | (j & Hj & _ & Hat)].
    + rewrite run_unaffected_by_later_faults in Ho by done.
      destruct (run_quiet_returns env p w) as [v Hv]. congruence.
    + by exists j.
  - intros (i & Hi & Hr).
    destruct (first_raise env w (length (calls (trace (run (quiet env) p w)))))
      as [Hnone | (j & Hj & Hat)].
    + rewrite Hnone in Hr by done. discriminate.
    + by destruct (run_fail_fast env p w j Hat Hj) as (Ho & _).
Qed.

(** X7.  No handler in dispatch.  For every registry and key, the run
    raises exactly when one of the calls the method would make raises;
    then the calls attempted are those up to the first that raises and
    nothing follows it.  When none of them raises, faults of later calls
    do not matter and the run is the fault-free run. *)
Theorem dispatch_raises_iff
    (self : Self) (key : string) (env : Env) (w : World) :
  let p := executeKeyboardJob self key in
  (outcome (run env p w) = Raised ActuatorError ↔
   ∃ i, (i < length (planned env p w))%nat ∧ raises env (calls_made w + i) = true) ∧
  (∀ j, (j < length (planned env p w))%nat → raises_at env w j →
        calls (trace (run env p w)) = take (S j) (planned env p w) ∧
        ∃ c, last (trace (run env p w)) = Some (EvCall c)) ∧
  ((∀ i, (i < length (planned env p w))%nat → raises env (calls_made w + i) = false) →
   run env p w = run (quiet env) p w).
Proof.
  cbv zeta. split; [apply run_raises_iff|]. split.
  - intros j Hj Hat.
    by destruct (run_fail_fast env _ w j Hat Hj) as (_ & Hc & _ & Hl).
  - apply run_unaffected_by_later_faults.
Qed.

Lemma dispatch_raises_iff_witness :
  (1 < length (planned second_call_raises (executeKeyboardJob init "3") startup))%nat ∧
  raises_at second_call_raises startup 1 ∧
  calls (trace (run second_call_raises (executeKeyboardJob init "3") startup)) =
    [gopigo3.led_on 0; gopigo3.led_on 1].
Proof.
  assert (Hlen : (1 < length (planned second_call_raises
                                (executeKeyboardJob init "3") startup))%nat)
    by (vm_compute; lia).
  assert (Hat : raises_at second_call_raises startup 1).
  { split; [|reflexivity]. intros i Hi. assert (i = 0%nat) as -> by lia. reflexivity. }
  split; [exact Hlen|]. split; [exact Hat|].
  exact (proj1 (proj1 (proj2 (dispatch_raises_iff init "3" second_call_raises startup))
                  1%nat Hlen Hat)).
Defined.

(** ** More on the toggles *)

(** X8.  A toggle writes its flag only after the hardware call went
    through.  For each of the six toggle keys and whatever the hardware
    does: when the run raises, the four flags are as before; when it
    returns, it returns ["static"] and the flags have changed. *)
Theorem toggle_flags_follow_hardware
    (key : string) (env : Env) (w : World) (Hkey : key ∈ toggle_keys) :
  let r := run env (executeKeyboardJob init key) w in
  (outcome r = Raised ActuatorError → flags (final r) = flags w) ∧
  (∀ v, outcome r = Returned v → v = "static" ∧ flags (final r) ≠ flags w).
Proof.
  cbv zeta. revert Hkey. unfold toggle_keys. rewrite !elem_of_cons, elem_of_nil.
  intros H.
  repeat (destruct H as [-> | H];
          [match goal with
           | |- context [executeKeyboardJob init ?k] =>
               let m := eval vm_compute in (executeKeyboardJob init k) in
               replace (executeKeyboardJob init k) with m
                 by (vm_compute; reflexivity)
           end;
           destruct w as [[[] [] [] []] n d]; cbn;
           repeat (match goal with |- context [raises env ?i] =>
                     destruct (raises env i) end; cbn);
           (split; [intros Ho; first [reflexivity | discriminate Ho]
                   |intros v Ho; first [discriminate Ho
                                       |injection Ho as <-; split; [reflexivity|discriminate]]])
          |]).
  done.
Qed.

Lemma toggle_flags_follow_hardware_witness :
  "3" ∈ toggle_keys ∧
  (let r := run second_call_raises (executeKeyboardJob init "3") startup in
   outcome r = Raised ActuatorError ∧ flags (final r) = flags startup).
Proof.
  assert (H : "3" ∈ toggle_keys) by (unfold toggle_keys; one_of_the_list).
  split; [exact H|]. cbv zeta.
  assert (Ho : outcome (run second_call_raises (executeKeyboardJob init "3") startup)
               = Raised ActuatorError) by reflexivity.
  split; [exact Ho|].
  exact (proj1 (toggle_flags_follow_hardware "3" second_call_raises startup H) Ho).
Defined.

(** X9.  The combined toggles are not involutions.  On hardware that does
    not fail, two presses of the handler of both blinkers (both eyes)
    bring the flags back exactly when the two flags were equal to begin
    with; after one press they are equal, so from then on the presses
    alternate. *)
Theorem combined_toggle_twice
    (eyes : bool) (env : Env) (w : World) (Hnever : never_raises env) :
  let p := combined_toggle eyes in
  let w1 := final (run env p w) in
  let w2 := final (run env p w1) in
  let w3 := final (run env p w2) in
  (flags w2 = flags w ↔
   get_attr (combined_pair eyes).1 (flags w) = get_attr (combined_pair eyes).2 (flags w)) ∧
  get_attr (combined_pair eyes).1 (flags w1) = get_attr (combined_pair eyes).2 (flags w1) ∧
  flags w3 = flags w1.
Proof.
  cbv zeta. rewrite !(run_quiet env) by done.
  destruct eyes; destruct w as [[[] [] [] []] n d]; vm_compute;
    repeat split; intros; congruence.
Qed.

Lemma combined_toggle_twice_witness :
  never_raises healthy ∧
  (let w := mkWorld (mkFlags true false false false) 0 0 in
   let w1 := final (run healthy _gopigo3_command_blinkers w) in
   let w2 := final (run healthy _gopigo3_command_blinkers w1) in
   flags w2 ≠ flags w).
Proof.
  split; [exact healthy_never_raises|]. cbv zeta. intros Heq.
  pose proof (proj1 (proj1 (combined_toggle_twice false healthy
                              (mkWorld (mkFlags true false false false) 0 0)
                              healthy_never_raises)) Heq) as H.
  discriminate H.
Defined.

Lemma individual_toggle_final (env : Env) (w : World) (f : Attr) :
  never_raises env →
  final (run env (individual_toggle f) w) =
  mkWorld (toggled f (flags w)) (S (calls_made w)) (draws_made w).
Proof.
  intros Hnever. rewrite (run_quiet env) by done.
  destruct f; destruct w as [[[] [] [] []] n d]; reflexivity.
Qed.

Lemma toggled_involutive (f : Attr) (s : Flags) : toggled f (toggled f s) = s.
Proof. destruct f; destruct s as [[] [] [] []]; reflexivity. Qed.

Lemma toggled_comm (f g : Attr) (s : Flags) :
  toggled f (toggled g s) = toggled g (toggled f s).
Proof. destruct f, g; destruct s as [[] [] [] []]; reflexivity. Qed.

(** X10.  Any number of presses of an individual toggle.  On hardware that
    does not fail, after [n] presses in succession the flags are those at
    the start when [n] is even and those with the one flag negated when
    [n] is odd; [n] hardware calls have been made and no random number
    drawn. *)
Theorem toggle_presses
    (env : Env) (w : World) (f : Attr) (n : nat) (Hnever : never_raises env) :
  let w' := presses env (individual_toggle f) n w in
  flags w' = (if Nat.even n then flags w else toggled f (flags w)) ∧
  calls_made w' = (calls_made w + n)%nat ∧
  draws_made w' = draws_made w.
Proof.
  cbv zeta. revert w. induction n as [|n IH]; intros w.
  - cbn. split; [done|]. split; [lia|done].
  - cbn [presses]. rewrite individual_toggle_final by done.
    destruct (IH (mkWorld (toggled f (flags w)) (S (calls_made w)) (draws_made w)))
      as (Hf & Hc & Hd).
    rewrite Hf, Hc, Hd. cbn [flags calls_made draws_made].
    rewrite Nat.even_succ, <- Nat.negb_even, toggled_involutive.
    split; [by destruct (Nat.even n)|]. split; [lia|done].
Qed.

Lemma toggle_presses_witness :
  never_raises healthy ∧
  flags (presses healthy (individual_toggle RightBlinkerOn) 5 startup) =
  mkFlags false true false false.
Proof.
  split; [exact healthy_never_raises|].
  exact (proj1 (toggle_presses healthy startup RightBlinkerOn 5 healthy_never_raises)).
Defined.

(** X11.  Individual toggles do not interfere.  On hardware that does not
    fail, pressing two of them in either order leaves the same world, and
    a toggle leaves the flags of the other three attributes as they
    were. *)
Theorem toggles_commute
    (env : Env) (w : World) (f g : Attr) (Hnever : never_raises env) :
  final (run env (individual_toggle g) (final (run env (individual_toggle f) w))) =
  final (run env (individual_toggle f) (final (run env (individual_toggle g) w))) ∧
  (f ≠ g →
   get_attr g (flags (final (run env (individual_toggle f) w))) = get_attr g (flags w)).
Proof.
  rewrite !individual_toggle_final by done. cbn [flags calls_made draws_made].
  split; [by rewrite toggled_comm|].
  intros Hne. destruct f, g; destruct w as [[[] [] [] []] n d];
    first [reflexivity | by destruct Hne].
Qed.

Lemma toggles_commute_witness :
  never_raises healthy ∧
  flags (final (run healthy (individual_toggle LeftEyeOn)
                    (final (run healthy (individual_toggle LeftBlinkerOn) startup)))) =
  flags (final (run healthy (individual_toggle LeftBlinkerOn)
                    (final (run healthy (individual_toggle LeftEyeOn) startup)))).
Proof.
  split; [exact healthy_never_raises|].
  exact (f_equal flags
           (proj1 (toggles_commute healthy startup LeftBlinkerOn LeftEyeOn
                     healthy_never_raises))).
Defined.

(** ** The loop of the dance *)

Lemma slow_loop_quiet_run (env : Env) (beat : Q) (n : nat) (w : World) :
  run (quiet env) (slow_loop beat n) w =
  mkResult (Returned tt)
           (mkWorld (flags w) (calls_made w + 2 * n) (draws_made w))
           (flat_map (slow_turn beat) (rev (seq 1 n))).
Proof.
  revert w. induction n as [|n IH]; intros w.
  - cbn. destruct w. by rewrite Nat.add_0_r.
  - change (run (quiet env) (slow_loop beat (S n)) w)
      with (emit (EvCall (gopigo3.set_speed (inject_Z (Z.of_nat (S n)) * 25)))
             (emit (EvCall (gopigo3.steer 100 100))
               (emit (EvSleep beat)
                 (run (quiet env) (slow_loop beat n)
                      (mkWorld (flags w) (S (S (calls_made w))) (draws_made w)))))).
    rewrite IH. unfold emit. cbn [outcome final trace flags calls_made draws_made].
    rewrite seq_S, rev_app_distr. cbn [rev app flat_map slow_turn Nat.add].
    f_equal. f_equal. lia.
Qed.

(** X12.  The loop of the dance, for every start value of the counter.
    On hardware that does not fail the loop ends after [n] turns, having
    made [2 n] calls and slept [n] beats; turn by turn it sets the speed
    [25 n, 25 (n - 1), ..., 25] and steers straight, so the loop never
    sets a speed of 0.  The dance contains the 12 turns of the loop as
    one stretch of its trace. *)
Theorem slow_loop_counts_down (env : Env) (beat : Q) (n : nat) (w : World) :
  let r := run (quiet env) (slow_loop beat n) w in
  outcome r = Returned tt ∧
  trace r = flat_map (slow_turn beat) (rev (seq 1 n)) ∧
  calls_made (final r) = (calls_made w + 2 * n)%nat ∧
  length (sleeps (trace r)) = n ∧
  Forall (λ c, ∀ speed, c = gopigo3.set_speed speed →
                        (25 <= speed)%Q ∧ (speed <= 25 * inject_Z (Z.of_nat n))%Q)
         (calls (trace r)) ∧
  ∃ before after,
    trace (run (quiet env) _gopigo3_command_activatedance w) =
    before ++ flat_map (slow_turn (60/128)) (rev (seq 1 12)) ++ after.
Proof.
  cbv zeta. rewrite slow_loop_quiet_run. cbn [outcome final trace calls_made].
  split; [done|]. split; [done|]. split; [done|]. split; [|split].
  - induction n as [|n IH]; [done|].
    rewrite seq_S, rev_app_distr. cbn [rev app flat_map slow_turn Nat.add].
    unfold sleeps in *. cbn. by rewrite IH.
  - apply Forall_forall. intros c Hc speed ->.
    unfold calls in Hc. apply list_elem_of_omap in Hc as (e & He & Hcall).
    apply list_elem_of_In, in_flat_map in He as (i & Hi & He).
    apply in_rev, in_seq in Hi.
    unfold slow_turn in He. cbn in He.
    destruct He as [<- | [<- | [<- | []]]]; try discriminate.
    injection Hcall as <-.
    unfold Qle. cbn. lia.
  - exists (take 77 (trace (run (quiet env) _gopigo3_command_activatedance w))),
           (drop (77 + 36) (trace (run (quiet env) _gopigo3_command_activatedance w))).
    vm_compute. reflexivity.
Qed.

(** ** The screen *)

Lemma drawMenu_loop_bound (env : Env) (kb : gmap string (string * string))
    (keys : list string) (w : World) :
  (∀ k, k ∈ keys → is_Some (kb !! k)) →
  trace (run env (drawMenu_loop kb keys) w) = EvPrint <$> omap (line_of kb) keys ∧
  length (omap (line_of kb) keys) = length keys.
Proof.
  induction keys as [|key rest IH]; intros Hall; [done|].
  destruct (Hall key) as [binding Hb]; [apply elem_of_cons; by left|].
  destruct IH as [Ht Hl]; [intros k Hk; apply Hall, elem_of_cons; by right|].
  assert (Hline : line_of kb key = Some (menu_line key (KEY_DESCRIPTION binding)))
    by (unfold line_of; by rewrite Hb).
  cbn. rewrite Hline, Hb. cbn. by rewrite Ht, Hl.
Qed.

Lemma drawMenu_loop_unbound (env : Env) (kb : gmap string (string * string))
    (pre post : list string) (key : string) (w : World) :
  (∀ k, k ∈ pre → is_Some (kb !! k)) →
  kb !! key = None →
  trace (run env (drawMenu_loop kb (pre ++ key :: post)) w) =
  EvPrint <$> (omap (line_of kb) pre ++ [mismatch_message]).
Proof.
  intros Hall Hnone. induction pre as [|k pre IH].
  - cbn. by rewrite Hnone.
  - destruct (Hall k) as [binding Hb]; [apply elem_of_cons; by left|].
    assert (Hline : line_of kb k = Some (menu_line k (KEY_DESCRIPTION binding)))
      by (unfold line_of; by rewrite Hb).
    cbn. rewrite Hline, Hb. cbn. rewrite IH; [done|].
    intros k' Hk'. apply Hall, elem_of_cons. by right.
Qed.

(** X13.  What the menu shows.  For every registry and display order:
    when every listed key is bound, [drawMenu] prints one line per listed
    key, in the order of the list, each made of the key and the
    description of its binding, and nothing else.  When a listed key is
    not bound, the lines of the keys before the first such key are
    printed, then the mismatch message, and no line of any later key. *)
Theorem menu_lines
    (kb : gmap string (string * string)) (pre post : list string) (key : string)
    (env : Env) (w : World)
    (Hpre : ∀ k, k ∈ pre → is_Some (kb !! k)) :
  (trace (run env (drawMenu (mkSelf kb pre)) w) = EvPrint <$> omap (line_of kb) pre ∧
   length (printed (trace (run env (drawMenu (mkSelf kb pre)) w))) = length pre) ∧
  (kb !! key = None →
   trace (run env (drawMenu (mkSelf kb (pre ++ key :: post))) w) =
   EvPrint <$> (omap (line_of kb) pre ++ [mismatch_message])).
Proof.
  unfold drawMenu. cbn [keybindings order_of_keys].
  destruct (drawMenu_loop_bound env kb pre w Hpre) as [Ht Hl].
  split; [split; [exact Ht|]|].
  - rewrite Ht. unfold printed. rewrite <- Hl. f_equal.
    generalize (omap (line_of kb) pre). intros l.
    induction l as [|x l IH]; [done|]. cbn. by rewrite IH.
  - intros Hnone. by apply drawMenu_loop_unbound.
Qed.

Lemma menu_lines_witness :
  (∀ k, k ∈ ["w"; "s"] → is_Some (the_keybindings !! k)) ∧
  trace (run healthy (drawMenu (mkSelf the_keybindings (["w"; "s"] ++ "q" :: ["a"]))) startup) =
  EvPrint <$> [menu_line "w" "Move the GoPiGo3 forward";
               menu_line "s" "Move the GoPiGo3 backward";
               mismatch_message].
Proof.
  assert (H : ∀ k, k ∈ ["w"; "s"] → is_Some (the_keybindings !! k)).
  { intros k Hk. apply registered_keys.
    rewrite !elem_of_cons, elem_of_nil in Hk.
    destruct Hk as [-> | [-> | []]]; unfold the_order_of_keys; one_of_the_list. }
  split; [exact H|].
  exact (proj2 (menu_lines the_keybindings ["w"; "s"] ["a"] "q" healthy startup H)
           eq_refl).
Defined.

(** X14.  The banner and the description only print.  Whatever the
    hardware does, [drawLogo] and [drawDescription] return, make no
    hardware call, do not sleep and leave the world as it was; the banner
    is 7 lines of the same width and the description 2 lines. *)
Theorem banner_only_prints (env : Env) (w : World) :
  (let r := run env drawLogo w in
   outcome r = Returned tt ∧ final r = w ∧
   trace r = EvPrint <$> printed (trace r) ∧
   length (printed (trace r)) = 7%nat ∧
   Forall (λ line, String.length line = 44%nat) (printed (trace r))) ∧
  (let r := run env drawDescription w in
   outcome r = Returned tt ∧ final r = w ∧
   trace r = EvPrint <$> printed (trace r) ∧
   length (printed (trace r)) = 2%nat).
Proof.
  cbv zeta. split.
  - repeat split. vm_compute. repeat constructor.
  - repeat split.
Qed.

(** ** Formatting of a menu line *)

Lemma code_points_app (s t : string) :
  code_points (s +:+ t) = (code_points s + code_points t)%nat.
Proof.
  induction s as [|a s IH]; [done|].
  change (((if is_continuation a then 0 else 1) + code_points (s +:+ t))%nat =
          ((if is_continuation a then 0 else 1) + code_points s + code_points t)%nat).
  rewrite IH. destruct (is_continuation a); lia.
Qed.

Lemma str_app_nil_r (s : string) : s +:+ "" = s.
Proof.
  induction s as [|a s IH]; [done|].
  change (String a (s +:+ "") = String a s). by rewrite IH.
Qed.

Lemma str_app_assoc (s t u : string) : (s +:+ t) +:+ u = s +:+ (t +:+ u).
Proof.
  induction s as [|a s IH]; [done|].
  change (String a ((s +:+ t) +:+ u) = String a (s +:+ (t +:+ u))). by rewrite IH.
Qed.

Lemma code_points_spaces (n : nat) :
  code_points (String.concat "" (replicate n " ")) = n.
Proof.
  induction n as [|n IH]; [done|].
  destruct n as [|n]; [done|].
  change (code_points (" " +:+ "" +:+ String.concat "" (replicate (S n) " ")) = S (S n)).
  rewrite !code_points_app, IH. reflexivity.
Qed.

(** X15.  The key column of the menu.  A key is padded with spaces to
    eight characters and never cut, the width being counted in characters
    and not in bytes: the padded key is the key followed by
    [8 - len(key)] spaces and is [max 8 (len key)] characters long.  So
    for keys of at most eight characters every description starts after
    the same number of characters, 19 with the carriage return that opens
    the line. *)
Theorem menu_columns (key description : string) :
  code_points (pad8 key) = Nat.max 8 (code_points key) ∧
  pad8 key = key +:+ String.concat "" (replicate (8 - code_points key) " ") ∧
  ((8 ≤ code_points key)%nat → pad8 key = key) ∧
  ((code_points key ≤ 8)%nat →
   ∃ head, menu_line key description = head +:+ description ∧
           code_points head = 19%nat).
Proof.
  split; [|split; [|split]].
  - unfold pad8. rewrite code_points_app, code_points_spaces. lia.
  - reflexivity.
  - intros Hlen. unfold pad8.
    replace (8 - code_points key)%nat with 0%nat by lia.
    apply str_app_nil_r.
  - intros Hlen.
    exists (String (Ascii.ascii_of_nat 13) "[key " +:+ pad8 key +:+ "] :  ").
    split.
    + unfold menu_line. by rewrite !str_app_assoc.
    + assert (H1 : code_points (String (Ascii.ascii_of_nat 13) "[key ") = 6%nat)
        by (vm_compute; reflexivity).
      assert (H2 : code_points "] :  " = 5%nat) by (vm_compute; reflexivity).
      unfold pad8. rewrite !code_points_app, code_points_spaces, H1, H2. lia.
Qed.

Lemma menu_columns_witness :
  (code_points "é" ≤ 8)%nat ∧
  pad8 "é" = "é       " ∧
  ∃ head, menu_line "é" "Exit" = head +:+ "Exit" ∧ code_points head = 19%nat.
Proof.
  assert (H : (code_points "é" ≤ 8)%nat) by (vm_compute; lia).
  split; [exact H|]. split.
  - exact (proj1 (proj2 (menu_columns "é" "Exit"))).
  - exact (proj2 (proj2 (proj2 (menu_columns "é" "Exit"))) H).
Defined.

(** ** The registry of the class *)

Lemma suffix_of_init_bound (key : string) :
  suffix_of init key ≠ "" → key ∈ the_order_of_keys.
Proof.
  intros Hne. apply registered_keys. unfold suffix_of in Hne.
  cbn [keybindings init] in Hne.
  destruct (the_keybindings !! key); [by eexists|done].
Qed.

(** X16.  The registry and the methods match one to one.  The menu order
    lists no key twice; every command method of the class is bound to
    exactly one key, which the menu order lists; and the menu of the class
    is 18 lines. *)
Theorem every_method_has_one_key :
  NoDup the_order_of_keys ∧
  (∀ suffix method, (suffix, method) ∈ methods_by_suffix →
     ∃ key, key ∈ the_order_of_keys ∧
            suffix_of init key = suffix ∧
            executeKeyboardJob init key = method ∧
            ∀ key', suffix_of init key' = suffix → key' = key) ∧
  (∀ env w, length (printed (trace (run env (drawMenu init) w))) = 18%nat).
Proof.
  split; [|split].
  - apply (bool_decide_eq_true_1 (NoDup the_order_of_keys)).
    vm_compute. reflexivity.
  - intros suffix method. unfold methods_by_suffix.
    rewrite !elem_of_cons, elem_of_nil. intros H.
    repeat (destruct H as [[= -> ->] | H];
            [match goal with
             | |- ∃ key, _ ∧ suffix_of init key = ?s ∧ _ =>
                 let found :=
                   eval vm_compute in
                     (List.find (λ k, String.eqb (suffix_of init k) s) the_order_of_keys) in
                 match found with
                 | Some ?k => exists k
                 end
             end;
             split; [unfold the_order_of_keys; one_of_the_list|];
             split; [vm_compute; reflexivity|];
             split; [vm_compute; reflexivity|];
             intros key' Hs;
             assert (Hin : key' ∈ the_order_of_keys)
               by (apply suffix_of_init_bound; rewrite Hs; discriminate);
             revert Hs; unfold the_order_of_keys in Hin;
             rewrite !elem_of_cons, elem_of_nil in Hin;
             repeat (destruct Hin as [-> | Hin];
                     [vm_compute; intros Hs; first [reflexivity | discriminate Hs]|]);
             done
            |]).
    done.
  - intros env w. vm_compute. reflexivity.
Qed.

Lemma every_method_has_one_key_witness :
  ∃ key, suffix_of init key = "stop" ∧
         executeKeyboardJob init key = _gopigo3_command_stop ∧
         ∀ key', suffix_of init key' = "stop" → key' = key.
Proof.
  destruct (proj1 (proj2 every_method_has_one_key) "stop" _gopigo3_command_stop)
    as (key & _ & Hs & Hm & Huniq).
  - unfold methods_by_suffix. one_of_the_list.
  - exists key. split; [exact Hs|]. split; [exact Hm|exact Huniq].
Defined.

(** ** The scripted routines under faults and the eyes *)

(** X17.  A delivery that fails does not stop the robot.  [stop] is the
    last of the 16 calls of the delivery and nothing guards the others:
    when one of the first 15 calls raises, the run raises, the calls
    attempted end with that call, and no [stop] is among them. *)
Theorem delivery_fault_before_stop
    (env : Env) (w : World) (j : nat)
    (Hj : (j < 15)%nat) (Hat : raises_at env w j) :
  let r := run env (executeKeyboardJob init "7") w in
  outcome r = Raised ActuatorError ∧
  length (calls (trace r)) = S j ∧
  Forall (λ c, c ≠ gopigo3.stop) (calls (trace r)).
Proof.
  cbv zeta. rewrite dispatch_delivery.
  destruct (run_fail_fast env _gopigo3_command_deliveraltoids w j Hat)
    as (Ho & Hc & _ & _).
  { rewrite delivery_quiet_run. cbn [trace]. rewrite calls_EvCall. cbn. lia. }
  rewrite delivery_quiet_run in Hc. cbn [trace] in Hc. rewrite calls_EvCall in Hc.
  split; [exact Ho|]. rewrite Hc. clear Ho Hc Hat.
  do 15 (destruct j as [|j];
         [split; [reflexivity|]; vm_compute; repeat constructor; discriminate|]).
  lia.
Qed.

Lemma delivery_fault_before_stop_witness :
  (1 < 15)%nat ∧ raises_at second_call_raises startup 1 ∧
  (let r := run second_call_raises (executeKeyboardJob init "7") startup in
   outcome r = Raised ActuatorError ∧
   length (calls (trace r)) = 2%nat ∧
   Forall (λ c, c ≠ gopigo3.stop) (calls (trace r))).
Proof.
  assert (Hj : (1 < 15)%nat) by lia.
  assert (Hat : raises_at second_call_raises startup 1).
  { split; [|reflexivity]. intros i Hi. assert (i = 0%nat) as -> by lia. reflexivity. }
  split; [exact Hj|]. split; [exact Hat|].
  exact (delivery_fault_before_stop second_call_raises startup 1 Hj Hat).
Defined.

(** X18.  The dance closes the eyes behind the back of the flags.  On
    hardware that does not fail, the last eye call of the dance is
    [close_eyes] and the four flags are left as they were; so when the
    left eye was on before the dance, the next press of its key closes it
    once more instead of opening it. *)
Theorem dance_closes_eyes_keeps_flags
    (env : Env) (w : World) (Hnever : never_raises env) :
  let r := run env (executeKeyboardJob init "5") w in
  last_eye_call (trace r) = Some gopigo3.close_eyes ∧
  flags (final r) = flags w ∧
  (left_eye_on (flags w) = true →
   trace (run env (executeKeyboardJob init "8") (final r)) =
   [EvCall gopigo3.close_left_eye]).
Proof.
  cbv zeta. rewrite dispatch_dance.
  rewrite (run_quiet env _gopigo3_command_activatedance) by done.
  rewrite dance_quiet_run. cbn [trace final flags].
  split; [vm_compute; reflexivity|].
  split; [reflexivity|].
  intros Hon. rewrite (run_quiet env (executeKeyboardJob init "8")) by done.
  destruct w as [[lb rb le re] n d]. cbn in Hon. subst le.
  vm_compute. reflexivity.
Qed.

Lemma dance_closes_eyes_keeps_flags_witness :
  never_raises healthy ∧
  (let w := mkWorld (mkFlags false false true true) 0 0 in
   let r := run healthy (executeKeyboardJob init "5") w in
   flags (final r) = flags w ∧
   trace (run healthy (executeKeyboardJob init "8") (final r)) =
   [EvCall gopigo3.close_left_eye]).
Proof.
  split; [exact healthy_never_raises|].
  destruct (dance_closes_eyes_keeps_flags healthy
              (mkWorld (mkFlags false false true true) 0 0) healthy_never_raises)
    as (_ & Hf & Hnext).
  cbv zeta. split; [exact Hf|exact (Hnext eq_refl)].
Defined.

(** ** A fault at the first call *)

Lemma methods_call_first :
  Forall (λ nm, nm.1 = "exit" ∨ calls_first nm.2) methods_by_suffix.
Proof. each_method ltac:(first [by left | right; by solve_free_of]). Qed.

Lemma calls_first_fault {A : Type} (env : Env) (p : Prog A) (w : World) :
  calls_first p →
  raises env (calls_made w) = true →
  outcome (run env p w) = Raised ActuatorError ∧
  (∃ c, trace (run env p w) = [EvCall c]) ∧
  flags (final (run env p w)) = flags w ∧
  calls_made (final (run env p w)) = S (calls_made w).
Proof.
  revert w.
  induction p as [a|c k IH|d k IH|a b k IH|f k IH|f v k IH|s k IH];
    intros w; simpl; try done.
  - intros _ ->. split; [done|]. split; [by eexists|done].
  - intros Hk Hr.
    exact (IH _ (mkWorld (flags w) (calls_made w) (S (draws_made w))) (Hk _) Hr).
  - intros Hk Hr. exact (IH _ w (Hk _) Hr).
Qed.

(** X19.  Nothing happens before the first hardware call.  For every
    registry and key: when the next hardware call raises, either the run
    raises with that one call attempted and nothing else done (no sleep,
    no print, the flags as before), or the key runs no hardware method at
    all and the run returns ["exit"] or ["nothing"] with the world
    untouched. *)
Theorem fault_at_first_call
    (self : Self) (key : string) (env : Env) (w : World)
    (Hfault : raises env (calls_made w) = true) :
  let r := run env (executeKeyboardJob self key) w in
  (outcome r = Raised ActuatorError ∧
   (∃ c, trace r = [EvCall c]) ∧
   flags (final r) = flags w ∧
   calls_made (final r) = S (calls_made w)) ∨
  ((outcome r = Returned "exit" ∨ outcome r = Returned "nothing") ∧
   trace r = [] ∧ final r = w).
Proof.
  cbv zeta.
  destruct (dispatch_cases (λ s m, s = "exit" ∨ calls_first m)
              self key methods_call_first) as [-> | [Hexit | Hfirst]].
  - right. split; [by right|done].
  - right.
    assert (Hm : executeKeyboardJob self key = mret "exit").
    { unfold executeKeyboardJob, getattr. fold (suffix_of self key).
      rewrite Hexit. reflexivity. }
    rewrite Hm. split; [by left|done].
  - left. by apply calls_first_fault.
Qed.

Lemma fault_at_first_call_witness :
  raises second_call_raises (calls_made (mkWorld class_flags 1 0)) = true ∧
  outcome (run second_call_raises (executeKeyboardJob init "e")
               (mkWorld class_flags 1 0)) = Raised ActuatorError.
Proof.
  assert (H : raises second_call_raises (calls_made (mkWorld class_flags 1 0)) = true)
    by reflexivity.
  split; [exact H|].
  destruct (fault_at_first_call init "e" second_call_raises (mkWorld class_flags 1 0) H)
    as [(Ho & _) | ([Ho | Ho] & _)];
    [exact Ho|discriminate Ho|discriminate Ho].
Defined.
